(** * AIGC Vision studio: prompt composition, Gemini clients and the
      generation session, embedded from the TypeScript sources.

    - [JS]      the string and array primitives the code calls
                ([trim], [join], [includes], [replace] with the one
                regular expression of the service);
    - [Types]   [types.ts];
    - [Styles]  the catalog of [components/StyleSelector.tsx];
    - [Gemini]  [services/geminiService.ts];
    - [App]     the handlers of [App.tsx] over the React state. *)

From Stdlib Require Import String Ascii List Bool Arith Lia.
Import ListNotations.

Open Scope list_scope.
Open Scope string_scope.

(* ================================================================= *)
(** ** JavaScript strings *)

(** A JavaScript string is a sequence of code units; the model keeps the
    code units below 256, which covers every literal of the sources. *)
Module JS.

(** [s] used as a condition: only the empty string is falsy. *)
Definition truthy (s : string) : bool :=
  match s with
  | EmptyString => false
  | String _ _ => true
  end.

(** White space and line terminators of [String.prototype.trim]
    among the code units below 256: TAB, LF, VT, FF, CR, SP, NBSP. *)
Definition isWhiteSpace (c : ascii) : bool :=
  let n := nat_of_ascii c in
  existsb (Nat.eqb n) [9; 10; 11; 12; 13; 32; 160].

Fixpoint trimStart (s : string) : string :=
  match s with
  | EmptyString => EmptyString
  | String c s' => if isWhiteSpace c then trimStart s' else s
  end.

Fixpoint trimEnd (s : string) : string :=
  match s with
  | EmptyString => EmptyString
  | String c s' =>
      match trimEnd s' with
      | EmptyString => if isWhiteSpace c then EmptyString
                       else String c EmptyString
      | r => String c r
      end
  end.

Definition trim (s : string) : string := trimEnd (trimStart s).

(** [l.join(sep)] *)
Fixpoint join (sep : string) (l : list string) : string :=
  match l with
  | [] => EmptyString
  | [x] => x
  | x :: rest => x ++ sep ++ join sep rest
  end.

(** [s.startsWith(p)] *)
Fixpoint startsWith (p s : string) : bool :=
  match p, s with
  | EmptyString, _ => true
  | String _ _, EmptyString => false
  | String a p', String b s' => Ascii.eqb a b && startsWith p' s'
  end.

(** [s.includes(p)] *)
Fixpoint includes (p s : string) : bool :=
  startsWith p s ||
  match s with
  | EmptyString => false
  | String _ s' => includes p s'
  end.

(** [s.endsWith(p)] *)
Fixpoint endsWith (p s : string) : bool :=
  String.eqb p s ||
  match s with
  | EmptyString => false
  | String _ s' => endsWith p s'
  end.

(** Every code unit of [s] satisfies [p]. *)
Fixpoint every (p : ascii -> bool) (s : string) : bool :=
  match s with
  | EmptyString => true
  | String c s' => p c && every p s'
  end.

(** [s.slice(start, end)] for integers [0 <= start <= end]. *)
Definition slice (start end_ : nat) (s : string) : string :=
  substring start (end_ - start) s.

(** The double quote character, which the template literals of the
    service contain. *)
Definition dquote : string := String (ascii_of_nat 34) EmptyString.

(** The line feed of a multi-line template literal. *)
Definition LF : string := String (ascii_of_nat 10) EmptyString.

End JS.

(* ================================================================= *)
(** ** types.ts *)

Module Types.

Record StylePreset := mkStylePreset {
  id : string;
  name : string;
  description : string;
  promptModifier : string;
  thumbnail : string
}.

(** [type AspectRatio = '1:1' | '16:9' | '9:16' | '4:3' | '3:4'] *)
Inductive AspectRatio := R1_1 | R16_9 | R9_16 | R4_3 | R3_4.

(** The string an [AspectRatio] is at run time. *)
Definition ratioValue (r : AspectRatio) : string :=
  match r with
  | R1_1 => "1:1"
  | R16_9 => "16:9"
  | R9_16 => "9:16"
  | R4_3 => "4:3"
  | R3_4 => "3:4"
  end.

(** [type BrandTone = 'default' | 'minimalist' | ...] *)
Inductive BrandTone :=
  default | minimalist | luxury | energetic | corporate | playful.

Definition toneValue (t : BrandTone) : string :=
  match t with
  | default => "default"
  | minimalist => "minimalist"
  | luxury => "luxury"
  | energetic => "energetic"
  | corporate => "corporate"
  | playful => "playful"
  end.

Record GeneratedImage := mkGeneratedImage {
  img_id : string;
  img_data : string;
  img_prompt : string;
  img_timestamp : nat;
  img_aspectRatio : string
}.

(** [negativePrompt?] and [referenceImage?] are optional members. *)
Record GenerationConfig := mkGenerationConfig {
  prompt : string;
  negativePrompt : option string;
  aspectRatio : string;
  styleId : string;
  referenceImage : option string
}.

Inductive AppState := IDLE | GENERATING | SUCCESS | ERROR.

End Types.

(* ================================================================= *)
(** ** components/StyleSelector.tsx: the catalog *)

Module Styles.
Import Types.

Definition STYLES : list StylePreset :=
  [ mkStylePreset "none" "Natural / Raw" "No specific style filter."
      "Photorealistic, natural lighting, high fidelity"
      "https://picsum.photos/id/28/100/100";
    mkStylePreset "cinematic" "Cinematic"
      "Movie-like lighting and composition."
      "Cinematic lighting, 8k resolution, photorealistic, depth of field, anamorphic lens flare, movie still"
      "https://picsum.photos/id/435/100/100";
    mkStylePreset "cyberpunk" "Cyberpunk"
      "Neon lights and futuristic tech."
      "Cyberpunk 2077 style, neon lights, futuristic, high tech low life, vibrant colors, volumetric fog, synthetic"
      "https://picsum.photos/id/532/100/100";
    mkStylePreset "watercolor" "Watercolor" "Soft and artistic."
      "Watercolor painting, soft edges, artistic, wet on wet, pastel colors, paper texture, masterpiece"
      "https://picsum.photos/id/104/100/100";
    mkStylePreset "3d-render" "3D Render" "Clean Octane render style."
      "3D render, Octane render, unreal engine 5, ray tracing, clean composition, plastic and glass materials, studio lighting"
      "https://picsum.photos/id/8/100/100";
    mkStylePreset "anime" "Anime" "Japanese animation style."
      "Anime style, Studio Ghibli inspired, cel shaded, vibrant, detailed background, 2D animation"
      "https://picsum.photos/id/453/100/100" ].

End Styles.

(* ================================================================= *)
(** ** App.tsx, the prompt composition of [handleGenerate] *)

Module Composer.
Import Types.

Section WithCatalog.
(** The catalog the component imports ([STYLES]). *)
Variable catalog : list StylePreset.

(** [const style = STYLES.find(s => s.id === selectedStyleId);]
    [const styleMod = style && style.id !== 'none' ? style.promptModifier : '';] *)
Definition styleMod (selectedStyleId : string) : string :=
  match find (fun s => String.eqb (id s) selectedStyleId) catalog with
  | Some style =>
      if negb (String.eqb (id style) "none") then promptModifier style
      else EmptyString
  | None => EmptyString
  end.

(** [const toneModifiers: Record<BrandTone, string> = {...}] *)
Definition toneModifiers (t : BrandTone) : string :=
  match t with
  | default => EmptyString
  | minimalist => "minimalist aesthetic, clean lines, uncluttered, negative space, neutral color palette, refined"
  | luxury => "luxury aesthetic, premium textures, gold and marble accents, dramatic rim lighting, sophisticated, high-end"
  | energetic => "high energy, dynamic motion, vibrant saturated colors, bold contrast, motion blur, impactful"
  | corporate => "professional corporate style, trustworthy blue and grey tones, structured composition, bright even lighting"
  | playful => "playful aesthetic, soft rounded shapes, pastel colors, warm lighting, whimsical, inviting"
  end.

Definition toneMod (brandTone : BrandTone) : string :=
  toneModifiers brandTone.

(** [p => p.trim() !== ''] *)
Definition nonBlank (p : string) : bool :=
  negb (String.eqb (JS.trim p) EmptyString).

(** [const parts = [styleMod, toneMod, prompt].filter(p => p.trim() !== '');] *)
Definition parts (selectedStyleId : string) (brandTone : BrandTone)
           (prompt : string) : list string :=
  filter nonBlank [styleMod selectedStyleId; toneMod brandTone; prompt].

(** The argument of [join]. *)
Definition separator : string := ". ".

(** [const finalPrompt = parts.join('. ');] *)
Definition finalPrompt (selectedStyleId : string) (brandTone : BrandTone)
           (prompt : string) : string :=
  JS.join separator (parts selectedStyleId brandTone prompt).

End WithCatalog.

End Composer.

(* ================================================================= *)
(** ** The regular expression of [generateImage] *)

(** [String.prototype.replace] with a pattern anchored by [^] and no
    flag: the pattern is tried at index 0 only, by backtracking, the
    quantifier [+] being greedy. *)
Module Regex.

(** What the pattern [/^data:image\/\w+;base64,/] is made of. *)
Inductive atom :=
| Lit (c : ascii)                  (* a character *)
| Plus (cls : ascii -> bool).      (* [cls+], greedy *)

Definition pattern := list atom.

(** [\w]: [A-Za-z0-9_] *)
Definition isWord (c : ascii) : bool :=
  let n := nat_of_ascii c in
  (Nat.leb 65 n && Nat.leb n 90) || (Nat.leb 97 n && Nat.leb n 122)
  || (Nat.leb 48 n && Nat.leb n 57) || Nat.eqb n 95.

(** As many [cls] characters as possible, fewer when the continuation
    [k] fails after them. *)
Fixpoint star (cls : ascii -> bool) (k : string -> option string)
         (s : string) : option string :=
  match s with
  | String c s' =>
      if cls c then
        match star cls k s' with
        | Some r => Some r
        | None => k s
        end
      else k s
  | EmptyString => k s
  end.

(** [exec p s]: the text after the match of [p] at the start of [s],
    [None] when [p] does not match there. *)
Fixpoint exec (p : pattern) (s : string) : option string :=
  match p with
  | [] => Some s
  | Lit c :: p' =>
      match s with
      | String d s' => if Ascii.eqb c d then exec p' s' else None
      | EmptyString => None
      end
  | Plus cls :: p' =>
      match s with
      | String d s' => if cls d then star cls (exec p') s' else None
      | EmptyString => None
      end
  end.

Fixpoint lits (s : string) : pattern :=
  match s with
  | EmptyString => []
  | String c s' => Lit c :: lits s'
  end.

(** [s.replace(/^p/, by)] *)
Definition replace (p : pattern) (by_ : string) (s : string) : string :=
  match exec p s with
  | Some rest => by_ ++ rest
  | None => s
  end.

(** [/^data:image\/\w+;base64,/] *)
Definition dataUrlHeader : pattern :=
  (lits "data:image/" ++ [Plus isWord] ++ lits ";base64,")%list.

End Regex.

(* ================================================================= *)
(** ** The external capability ([@google/genai]) *)

Module GenAI.

(** What a [throw] carries. *)
Inductive JSError :=
| Error (message : string)
| TypeError (message : string).

(** How an awaited call or a [try] body ends. *)
Inductive Outcome (A : Type) :=
| Returned (a : A)
| Thrown (e : JSError).
Arguments Returned {A} a.
Arguments Thrown {A} e.

Record Blob := mkBlob {
  data : option string;
  mimeType : option string
}.

Record Part := mkPart {
  inlineData : option Blob;
  text : option string
}.

Record Content := mkContent {
  parts : option (list Part)
}.

Record Candidate := mkCandidate {
  content : option Content
}.

Inductive ContentUnion :=
| OfString (s : string)            (* [contents: `...`] *)
| OfParts (ps : list Part).        (* [contents: { parts }] *)

Record GenerateContentParameters := mkParameters {
  model : string;
  contents : ContentUnion;
  imageConfig_aspectRatio : option string   (* [config.imageConfig.aspectRatio] *)
}.

Record GenerateContentResponse := mkResponse {
  candidates : option (list Candidate);
  response_text : option string             (* [response.text] *)
}.

(** [ai.models.generateContent]: the remote service, any function of
    the request. *)
Definition Client :=
  GenerateContentParameters -> Outcome GenerateContentResponse.

(** Code that calls the service: it threads the list of the requests
    sent so far. *)
Definition IO (A : Type) : Type :=
  list GenerateContentParameters -> A * list GenerateContentParameters.

Definition ret {A} (a : A) : IO A := fun log => (a, log).

Definition bind {A B} (m : IO A) (k : A -> IO B) : IO B :=
  fun log => let (a, log') := m log in k a log'.

(** [await ai.models.generateContent(req)] *)
Definition generateContent (ai : Client) (req : GenerateContentParameters)
  : IO (Outcome GenerateContentResponse) :=
  fun log => (ai req, (log ++ [req])%list).

(** The value and the requests of a run that starts with none sent. *)
Definition run {A} (m : IO A) : A * list GenerateContentParameters := m [].

End GenAI.

Declare Scope io_scope.
Delimit Scope io_scope with io.
Notation "x <- m ;; k" := (GenAI.bind m (fun x => k))
  (at level 61, m at next level, right associativity) : io_scope.

(* ================================================================= *)
(** ** services/geminiService.ts *)

(** [BrandTone] and [AspectRatio] are string literal types: at run time
    the service receives strings, and its [switch] statements have a
    [default] branch for every other string. *)
Module Gemini.
Import JS GenAI.
Local Open Scope io_scope.

(** [v || d] for an optional string [v]. *)
Definition orElse (v : option string) (d : string) : string :=
  match v with
  | Some s => if truthy s then s else d
  | None => d
  end.

(** *** enhancePrompt *)

Definition systemInstruction : string :=
  "You are an expert visual prompt engineer for generative AI.".

(** [switch (tone)] *)
Definition toneInstruction (tone : string) : string :=
  if String.eqb tone "minimalist" then
    "Brand Tone: 'Minimalist'. Focus on clean lines, negative space, desaturated palettes, soft diffused lighting, and simplicity."
  else if String.eqb tone "luxury" then
    "Brand Tone: 'Luxury'. Emphasize elegance, premium materials (gold, marble, silk), dramatic rim lighting, depth of field, and sophistication."
  else if String.eqb tone "energetic" then
    "Brand Tone: 'Energetic'. Use dynamic composition, motion blur, vibrant neon or saturated colors, high contrast, and action-oriented angles."
  else if String.eqb tone "corporate" then
    "Brand Tone: 'Corporate'. Ensure a professional, trustworthy look with blue/grey tones, structured symmetrical composition, and bright, even studio lighting."
  else if String.eqb tone "playful" then
    "Brand Tone: 'Playful'. Use soft rounded shapes, pastel or bright primary colors, warm high-key lighting, and a whimsical or inviting atmosphere."
  else
    "Brand Tone: High-quality professional photography with balanced composition.".

(** [switch (ratio)], first assignment of each case *)
Definition compositionInstruction (ratio : string) : string :=
  if String.eqb ratio "16:9" then
    "Composition: Wide cinematic shot, rule of thirds, emphasize horizontal scale. Describe a wide-angle view."
  else if String.eqb ratio "9:16" then
    "Composition: Vertical portrait framing, tall subject matter, emphasize height and vertical leading lines. Describe a tall, vertical view."
  else if String.eqb ratio "1:1" then
    "Composition: Centralized symmetrical framing, balanced square composition, focus on the subject."
  else if String.eqb ratio "4:3" then
    "Composition: Classic photography framing, balanced distribution."
  else if String.eqb ratio "3:4" then
    "Composition: Classic portrait photography framing."
  else
    "Composition: Balanced standard photography framing.".

(** [switch (ratio)], second assignment of each case *)
Definition ratioKeywords (ratio : string) : string :=
  if String.eqb ratio "16:9" then
    "wide shot, cinematic composition, panoramic view, 16:9 aspect ratio"
  else if String.eqb ratio "9:16" then
    "vertical shot, portrait mode, tall composition, 9:16 aspect ratio"
  else if String.eqb ratio "1:1" then
    "square composition, symmetrical framing, centered subject"
  else if String.eqb ratio "4:3" then
    "4:3 standard photography aspect ratio"
  else if String.eqb ratio "3:4" then
    "3:4 standard portrait aspect ratio"
  else
    "balanced composition".

(** The template literal passed as [contents]. *)
Definition enhanceContents (rawPrompt tone ratio : string) : string :=
  systemInstruction ++ " " ++ LF ++
  "      " ++ LF ++
  "      TASK: Rewrite the user's request into a highly detailed image generation prompt (approx 100-150 words)." ++ LF ++
  LF ++
  "      STEPS:" ++ LF ++
  "      1. ANALYZE the " ++ dquote ++ "User Scenario" ++ dquote ++ " and apply specific technical rules:" ++ LF ++
  "         - IF Product Photography: Use " ++ dquote ++ "studio lighting, softbox, 100mm macro lens, 8k textures, neutral background" ++ dquote ++ "." ++ LF ++
  "         - IF UI/UX Design: Use " ++ dquote ++ "clean vector style, flat lay, Behance trending, modern typography, Figma style" ++ dquote ++ "." ++ LF ++
  "         - IF Character Design: Use " ++ dquote ++ "full body shot, expressive pose, octane render, subsurface scattering, rim lighting" ++ dquote ++ "." ++ LF ++
  "         - IF Architecture: Use " ++ dquote ++ "wide angle lens, architectural digest style, golden hour lighting, hyper-realistic materials" ++ dquote ++ "." ++ LF ++
  "         - IF Landscape/Nature: Use " ++ dquote ++ "atmospheric perspective, volumetric lighting, photorealistic, intricate details" ++ dquote ++ "." ++ LF ++
  "      " ++ LF ++
  "      2. APPLY Brand Tone: " ++ toneInstruction tone ++ LF ++
  "      " ++ LF ++
  "      3. APPLY Composition: " ++ compositionInstruction ratio ++ LF ++
  "      " ++ LF ++
  "      4. MANDATORY: You MUST include these exact composition keywords in the final prompt text: " ++ dquote ++ ratioKeywords ratio ++ dquote ++ "." ++ LF ++
  "      " ++ LF ++
  "      5. Output ONLY the raw prompt text. Do not use quotes, markdown, or explanations." ++ LF ++
  "      " ++ LF ++
  "      User request: " ++ dquote ++ rawPrompt ++ dquote.

Definition enhanceRequest (rawPrompt tone ratio : string)
  : GenerateContentParameters :=
  mkParameters "gemini-2.5-flash"
               (OfString (enhanceContents rawPrompt tone ratio)) None.

(** [try { const response = await ...; return response.text?.trim() || rawPrompt; }]
    [catch (error) { console.warn(...); return rawPrompt; }] *)
Definition enhancePrompt (ai : Client) (rawPrompt tone ratio : string)
  : IO string :=
  r <- generateContent ai (enhanceRequest rawPrompt tone ratio) ;;
  match r with
  | Returned response =>
      ret (orElse (option_map trim (response_text response)) rawPrompt)
  | Thrown error => ret rawPrompt
  end.

(** *** suggestCreativePrompt *)

Definition context (tone : string) : string :=
  if String.eqb tone "minimalist" then
    "Generate a prompt for a clean, minimalist design object or architectural detail. Focus on white, grey, and soft light."
  else if String.eqb tone "luxury" then
    "Generate a prompt for a high-end fashion editorial or luxury product shot (watch, perfume, car). Focus on gold, black, and dramatic light."
  else if String.eqb tone "energetic" then
    "Generate a prompt for a dynamic sports event or cyberpunk scene with motion blur and neon colors."
  else if String.eqb tone "corporate" then
    "Generate a prompt for a modern office concept or abstract tech visualization suitable for a business presentation."
  else if String.eqb tone "playful" then
    "Generate a prompt for a cute 3D character or colorful landscape in a style like Pixar or Nintendo."
  else
    "Generate a vivid, highly detailed visual prompt (sci-fi, fantasy, or cinematic photography).".

Definition ratioHint (ratio : string) : string :=
  if String.eqb ratio "9:16" then
    "The subject MUST fit a vertical frame (tall)."
  else if String.eqb ratio "16:9" then
    "The subject MUST fit a wide panoramic frame."
  else EmptyString.

Definition suggestContents (tone ratio : string) : string :=
  "Task: " ++ context tone ++ " " ++ LF ++
  "      Constraint: " ++ ratioHint ratio ++ LF ++
  "      Output ONLY the image prompt text. Keep it descriptive but under 50 words.".

Definition suggestRequest (tone ratio : string) : GenerateContentParameters :=
  mkParameters "gemini-2.5-flash" (OfString (suggestContents tone ratio)) None.

Definition floatingCity : string :=
  "A futuristic city floating in the clouds at golden hour, hyper-realistic, 8k resolution.".

Definition cyberpunkDetective : string :=
  "A cyberpunk detective standing in neon rain, digital art style, high contrast.".

Definition suggestCreativePrompt (ai : Client) (tone ratio : string)
  : IO string :=
  r <- generateContent ai (suggestRequest tone ratio) ;;
  match r with
  | Returned response =>
      ret (orElse (option_map trim (response_text response)) floatingCity)
  | Thrown error => ret cyberpunkDetective
  end.

(** *** generateImage *)

Definition modelName : string := "gemini-2.5-flash-image".

(** [`${config.prompt}. ${config.negativePrompt ? `Exclude: ${config.negativePrompt}.` : ''}`] *)
Definition fullPrompt (config : Types.GenerationConfig) : string :=
  Types.prompt config ++ ". " ++
  match Types.negativePrompt config with
  | Some n => if truthy n then "Exclude: " ++ n ++ "." else EmptyString
  | None => EmptyString
  end.

(** [config.referenceImage.replace(/^data:image\/\w+;base64,/, "")] *)
Definition base64Data (referenceImage : string) : string :=
  Regex.replace Regex.dataUrlHeader EmptyString referenceImage.

(** [const parts: Part[] = []; if (config.referenceImage) parts.push({inlineData: ...});]
    [parts.push({ text: fullPrompt });] *)
Definition requestParts (config : Types.GenerationConfig) : list Part :=
  (match Types.referenceImage config with
   | Some ref =>
       if truthy ref then
         [mkPart (Some (mkBlob (Some (base64Data ref)) (Some "image/png")))
                 None]
       else []
   | None => []
   end ++ [mkPart None (Some (fullPrompt config))])%list.

Definition imageRequest (config : Types.GenerationConfig)
  : GenerateContentParameters :=
  mkParameters modelName (OfParts (requestParts config))
               (Some (Types.aspectRatio config)).

(** [for (const part of ...) if (part.inlineData && part.inlineData.data) return ...] *)
Fixpoint scanParts (ps : list Part) : option string :=
  match ps with
  | [] => None
  | part :: rest =>
      match inlineData part with
      | Some blob =>
          match data blob with
          | Some d =>
              if truthy d then Some ("data:image/png;base64," ++ d)
              else scanParts rest
          | None => scanParts rest
          end
      | None => scanParts rest
      end
  end.

Definition noImageData : JSError :=
  Error "No image data found in response.".

(** Reading a property of [undefined]. *)
Definition cannotRead (property : string) : JSError :=
  TypeError ("Cannot read properties of undefined (reading '"
             ++ property ++ "')").

(** [if (response.candidates && response.candidates[0].content.parts) { for ... }]
    [throw new Error("No image data found in response.");] *)
Definition parseResponse (response : GenerateContentResponse)
  : Outcome string :=
  match candidates response with
  | None => Thrown noImageData
  | Some cs =>
      match nth_error cs 0 with
      | None => Thrown (cannotRead "content")
      | Some candidate =>
          match content candidate with
          | None => Thrown (cannotRead "parts")
          | Some ct =>
              match parts ct with
              | None => Thrown noImageData
              | Some ps =>
                  match scanParts ps with
                  | Some image => Returned image
                  | None => Thrown noImageData
                  end
              end
          end
      end
  end.

(** [catch (error) { console.error(...); throw error; }] *)
Definition generateImage (ai : Client) (config : Types.GenerationConfig)
  : IO (Outcome string) :=
  r <- generateContent ai (imageRequest config) ;;
  match r with
  | Returned response => ret (parseResponse response)
  | Thrown error => ret (Thrown error)
  end.

End Gemini.

(* ================================================================= *)
(** ** App.tsx: the session state and [handleGenerate] *)

Module App.
Import JS Types GenAI.

(** The [useState] cells of the component. *)
Record State := mkState {
  prompt : string;
  negativePrompt : string;
  aspectRatio : AspectRatio;
  selectedStyleId : string;
  brandTone : BrandTone;
  referenceImage : option string;
  appState : AppState;
  isTextLoading : bool;
  errorMessage : option string;
  justRefined : bool;
  history : list GeneratedImage;
  currentImage : option GeneratedImage;
  isSidebarOpen : bool
}.

(** What the handler reads from outside the component. *)
Record Env := mkEnv {
  ai : Client;                 (* the remote service *)
  innerWidth : nat;            (* [window.innerWidth] *)
  randomUUID : string;         (* [crypto.randomUUID()] *)
  now : nat                    (* [Date.now()] *)
}.

(** A handler reads the values its render captured (a [State] given
    as an argument) and writes the live cells through the setters;
    it may call the service on the way. *)
Definition Handler (A : Type) : Type := State -> IO (A * State).

Definition ret {A} (a : A) : Handler A :=
  fun s => GenAI.ret (a, s).

Definition bind {A B} (m : Handler A) (k : A -> Handler B) : Handler B :=
  fun s => GenAI.bind (m s) (fun r => k (fst r) (snd r)).

Definition seq {B} (m : Handler unit) (k : Handler B) : Handler B :=
  bind m (fun _ => k).

(** [await] of a service call. *)
Definition await {A} (m : IO A) : Handler A :=
  fun s => GenAI.bind m (fun a => GenAI.ret (a, s)).

Definition update (f : State -> State) : Handler unit :=
  fun s => GenAI.ret (tt, f s).

Definition setAppState (v : AppState) : Handler unit :=
  update (fun s =>
    mkState (prompt s) (negativePrompt s) (aspectRatio s)
            (selectedStyleId s) (brandTone s) (referenceImage s)
            v (isTextLoading s) (errorMessage s) (justRefined s)
            (history s) (currentImage s) (isSidebarOpen s)).

Definition setErrorMessage (v : option string) : Handler unit :=
  update (fun s =>
    mkState (prompt s) (negativePrompt s) (aspectRatio s)
            (selectedStyleId s) (brandTone s) (referenceImage s)
            (appState s) (isTextLoading s) v (justRefined s)
            (history s) (currentImage s) (isSidebarOpen s)).

(** [setHistory(prev => f(prev))] *)
Definition setHistory (f : list GeneratedImage -> list GeneratedImage)
  : Handler unit :=
  update (fun s =>
    mkState (prompt s) (negativePrompt s) (aspectRatio s)
            (selectedStyleId s) (brandTone s) (referenceImage s)
            (appState s) (isTextLoading s) (errorMessage s) (justRefined s)
            (f (history s)) (currentImage s) (isSidebarOpen s)).

Definition setCurrentImage (v : option GeneratedImage) : Handler unit :=
  update (fun s =>
    mkState (prompt s) (negativePrompt s) (aspectRatio s)
            (selectedStyleId s) (brandTone s) (referenceImage s)
            (appState s) (isTextLoading s) (errorMessage s) (justRefined s)
            (history s) v (isSidebarOpen s)).

Definition setIsSidebarOpen (v : bool) : Handler unit :=
  update (fun s =>
    mkState (prompt s) (negativePrompt s) (aspectRatio s)
            (selectedStyleId s) (brandTone s) (referenceImage s)
            (appState s) (isTextLoading s) (errorMessage s) (justRefined s)
            (history s) (currentImage s) v).

(** An optional string used as a condition ([null] and [''] are falsy). *)
Definition truthyOpt (v : option string) : bool :=
  match v with
  | Some s => truthy s
  | None => false
  end.

(** [referenceImage || undefined] *)
Definition orUndefined (v : option string) : option string :=
  if truthyOpt v then v else None.

Definition generationFailed : string :=
  "Image generation failed. Please check your prompt or try again.".

(** An async handler cut at the places where the cells can be looked
    at: a block of setter calls, then the rest; the [await] of the
    image call, then the rest for each way the call can end; the
    end. *)
Inductive Script : Type :=
| Return
| Run (block : Handler unit) (next : Script)
| Await (promise : IO (Outcome string)) (next : Outcome string -> Script).

(** The handler a script is. *)
Fixpoint perform (p : Script) : Handler unit :=
  match p with
  | Return => ret tt
  | Run block next => seq block (perform next)
  | Await promise next => bind (await promise) (fun r => perform (next r))
  end.

(** The cells at the end of each block, in order, when the script runs
    on the cells [s] after the requests of [log]. *)
Fixpoint cellsFrom (p : Script) (s : State)
         (log : list GenerateContentParameters) : list State :=
  match p with
  | Return => []
  | Run block next =>
      let '(_, s', log') := block s log in s' :: cellsFrom next s' log'
  | Await promise next =>
      let (r, log') := promise log in cellsFrom (next r) s log'
  end.

(** The cells while the script waits at an [await]: what the component
    shows during the call. *)
Fixpoint waitingFrom (p : Script) (s : State)
         (log : list GenerateContentParameters) : list State :=
  match p with
  | Return => []
  | Run block next =>
      let '(_, s', log') := block s log in waitingFrom next s' log'
  | Await promise next =>
      let (r, log') := promise log in s :: waitingFrom (next r) s log'
  end.

Definition moments (p : Script) (s : State) : list State :=
  cellsFrom p s [].

Definition waiting (p : Script) (s : State) : list State :=
  waitingFrom p s [].

Section Handlers.
Variable env : Env.
(** The cells as the render that created the handler saw them. *)
Variable c : State.

(** [!prompt.trim() && !referenceImage] *)
Definition nothingToGenerate : bool :=
  negb (truthy (trim (prompt c))) && negb (truthyOpt (referenceImage c)).

(** [const config: GenerationConfig = {...}] *)
Definition config : GenerationConfig :=
  mkGenerationConfig
    (Composer.finalPrompt Styles.STYLES (selectedStyleId c) (brandTone c)
                          (prompt c))
    (Some (negativePrompt c))
    (ratioValue (aspectRatio c))
    (selectedStyleId c)
    (orUndefined (referenceImage c)).

(** [const newImage: GeneratedImage = {...}] *)
Definition newImage (base64Image : string) : GeneratedImage :=
  mkGeneratedImage (randomUUID env) base64Image (prompt c) (now env)
                   (ratioValue (aspectRatio c)).

(** Lines 132-138: what runs before the [await]. *)
Definition announce : Handler unit :=
  seq (setAppState GENERATING)
  (seq (setErrorMessage None)
       (if Nat.leb (innerWidth env) 768 then setIsSidebarOpen false
        else ret tt)).

(** Lines 169-186: the [try] body after the [await], and [catch]. *)
Definition settle (r : Outcome string) : Handler unit :=
  match r with
  | Returned base64Image =>
      seq (setHistory (fun prev => newImage base64Image :: prev))
      (seq (setCurrentImage (Some (newImage base64Image)))
           (setAppState SUCCESS))
  | Thrown error =>
      seq (setAppState ERROR)
          (setErrorMessage (Some generationFailed))
  end.

(** Lines 187-194: [finally { if (errorMessage) ... else ... }]. *)
Definition finally_ : Handler unit :=
  if truthyOpt (errorMessage c) then setAppState ERROR
  else setAppState IDLE.

(** The body of [handleGenerate], lines 130-194: the guard, the block
    before the [await], the [await], the [try] body or the [catch]
    block, the [finally] block. *)
Definition handleGenerateBody : Script :=
  if nothingToGenerate then Return
  else
    Run announce
    (Await (Gemini.generateImage (ai env) config)
           (fun r => Run (settle r) (Run finally_ Return))).

(** [const handleGenerate = async () => {...}] *)
Definition handleGenerate : Handler unit :=
  perform handleGenerateBody.

(** What the awaited [generateImage(config)] gives. *)
Definition generated : Outcome string :=
  fst (GenAI.run (Gemini.generateImage (ai env) config)).

End Handlers.

(** The cells once the handler has run on the live cells [s], no
    request having been sent before, and the requests it sent. *)
Definition stateAfter {A} (h : Handler A) (s : State) : State :=
  snd (fst (GenAI.run (h s))).

Definition requestsOf {A} (h : Handler A) (s : State)
  : list GenerateContentParameters :=
  snd (GenAI.run (h s)).

(** The initial values of the [useState] cells. *)
Definition initial (env : Env) : State :=
  mkState EmptyString EmptyString R1_1 "none" default None
          IDLE false None false [] None
          (negb (Nat.leb (innerWidth env) 768)).

Definition setPrompt (v : string) : Handler unit :=
  update (fun s =>
    mkState v (negativePrompt s) (aspectRatio s)
            (selectedStyleId s) (brandTone s) (referenceImage s)
            (appState s) (isTextLoading s) (errorMessage s) (justRefined s)
            (history s) (currentImage s) (isSidebarOpen s)).

(** A click on the Generate button of a component whose cells are [s]:
    the handler of the current render runs on the live cells. *)
Definition click (env : Env) (s : State)
  : State * list GenerateContentParameters :=
  (stateAfter (handleGenerate env s) s, requestsOf (handleGenerate env s) s).

(** *** The other handlers of the component *)

Definition setNegativePrompt (v : string) : Handler unit :=
  update (fun s =>
    mkState (prompt s) v (aspectRatio s)
            (selectedStyleId s) (brandTone s) (referenceImage s)
            (appState s) (isTextLoading s) (errorMessage s) (justRefined s)
            (history s) (currentImage s) (isSidebarOpen s)).

Definition setAspectRatio (v : AspectRatio) : Handler unit :=
  update (fun s =>
    mkState (prompt s) (negativePrompt s) v
            (selectedStyleId s) (brandTone s) (referenceImage s)
            (appState s) (isTextLoading s) (errorMessage s) (justRefined s)
            (history s) (currentImage s) (isSidebarOpen s)).

Definition setSelectedStyleId (v : string) : Handler unit :=
  update (fun s =>
    mkState (prompt s) (negativePrompt s) (aspectRatio s)
            v (brandTone s) (referenceImage s)
            (appState s) (isTextLoading s) (errorMessage s) (justRefined s)
            (history s) (currentImage s) (isSidebarOpen s)).

Definition setBrandTone (v : BrandTone) : Handler unit :=
  update (fun s =>
    mkState (prompt s) (negativePrompt s) (aspectRatio s)
            (selectedStyleId s) v (referenceImage s)
            (appState s) (isTextLoading s) (errorMessage s) (justRefined s)
            (history s) (currentImage s) (isSidebarOpen s)).

Definition setReferenceImage (v : option string) : Handler unit :=
  update (fun s =>
    mkState (prompt s) (negativePrompt s) (aspectRatio s)
            (selectedStyleId s) (brandTone s) v
            (appState s) (isTextLoading s) (errorMessage s) (justRefined s)
            (history s) (currentImage s) (isSidebarOpen s)).

Definition setIsTextLoading (v : bool) : Handler unit :=
  update (fun s =>
    mkState (prompt s) (negativePrompt s) (aspectRatio s)
            (selectedStyleId s) (brandTone s) (referenceImage s)
            (appState s) v (errorMessage s) (justRefined s)
            (history s) (currentImage s) (isSidebarOpen s)).

Definition setJustRefined (v : bool) : Handler unit :=
  update (fun s =>
    mkState (prompt s) (negativePrompt s) (aspectRatio s)
            (selectedStyleId s) (brandTone s) (referenceImage s)
            (appState s) (isTextLoading s) (errorMessage s) v
            (history s) (currentImage s) (isSidebarOpen s)).

(** [setTimeout(callback, delay)]: what is registered. *)
Record Timeout := mkTimeout {
  callback : Handler unit;
  delay : nat
}.

(** [await p] in a [try] block, for a promise of the service module
    whose function catches every error itself: it is fulfilled. *)
Definition settled {A} (m : IO A) : Handler (Outcome A) :=
  bind (await m) (fun a => ret (Returned a)).

Definition enhanceFailed : string :=
  "Failed to enhance prompt. Please try again.".

Definition suggestionFailed : string :=
  "Could not generate a suggestion.".

Section MoreHandlers.
Variable env : Env.
Variable c : State.

(** [const handleEnhancePrompt = async () => {...}]; the value is the
    list of the timeouts the handler registered. *)
Definition handleEnhancePrompt : Handler (list Timeout) :=
  if negb (truthy (trim (prompt c))) then ret []
  else
    seq (setIsTextLoading true)
    (seq (setErrorMessage None)
    (seq (setJustRefined false)
    (bind (settled (Gemini.enhancePrompt (ai env) (prompt c)
                      (toneValue (brandTone c))
                      (ratioValue (aspectRatio c))))
          (fun r =>
             bind (match r with
                   | Returned enhanced =>
                       seq (setPrompt enhanced)
                       (seq (setJustRefined true)
                            (ret [mkTimeout (setJustRefined false) 3000]))
                   | Thrown e =>
                       seq (setErrorMessage (Some enhanceFailed)) (ret [])
                   end)
                  (fun timeouts =>
                     seq (setIsTextLoading false) (ret timeouts)))))).

(** The [try] body of [handleSurpriseMe] after the [await];
    [pick] is [Math.floor(Math.random() * STYLES.length)], and reading
    [id] of a missing element throws. *)
Definition surprise (pick : nat) (creative : string) : Handler (Outcome unit) :=
  seq (setPrompt creative)
      (match brandTone c with
       | default =>
           match nth_error Styles.STYLES pick with
           | Some randomStyle =>
               seq (setSelectedStyleId (id randomStyle)) (ret (Returned tt))
           | None => ret (Thrown (Gemini.cannotRead "id"))
           end
       | _ => ret (Returned tt)
       end).

(** [const handleSurpriseMe = async () => {...}] *)
Definition handleSurpriseMe (pick : nat) : Handler unit :=
  seq (setIsTextLoading true)
  (seq (setErrorMessage None)
  (seq (setJustRefined false)
  (bind (settled (Gemini.suggestCreativePrompt (ai env)
                    (toneValue (brandTone c))
                    (ratioValue (aspectRatio c))))
        (fun r =>
           bind (match r with
                 | Returned creative => surprise pick creative
                 | Thrown e => ret (Thrown e)
                 end)
                (fun r' =>
                   seq (match r' with
                        | Returned _ => ret tt
                        | Thrown e => setErrorMessage (Some suggestionFailed)
                        end)
                       (setIsTextLoading false)))))).

(** The fields of a [KeyboardEvent] the component reads. *)
Record KeyboardEvent := mkKeyboardEvent {
  metaKey : bool;
  ctrlKey : bool;
  key : string
}.

(** [const handleKeyDown = (e: KeyboardEvent) => {...}] of the second
    effect; [handleGenerate()] is the handler of the same render. *)
Definition handleKeyDown (e : KeyboardEvent) : Handler unit :=
  if (metaKey e || ctrlKey e) && String.eqb (key e) "Enter" then
    if truthy (prompt c) || truthyOpt (referenceImage c) then
      handleGenerate env c
    else ret tt
  else ret tt.

(** [disabled={appState === AppState.GENERATING || (!prompt && !referenceImage)}] *)
Definition generateDisabled : bool :=
  match appState c with
  | GENERATING => true
  | _ => negb (truthy (prompt c)) && negb (truthyOpt (referenceImage c))
  end.

(** [disabled={isTextLoading || appState === AppState.GENERATING}] *)
Definition surpriseDisabled : bool :=
  isTextLoading c || match appState c with GENERATING => true | _ => false end.

(** [disabled={isTextLoading || appState === AppState.GENERATING || !prompt}] *)
Definition enhanceDisabled : bool :=
  surpriseDisabled || negb (truthy (prompt c)).

End MoreHandlers.

(** [const setInspiration = (p, styleId, tone) => {...}] *)
Definition setInspiration (p styleId : string) (tone : BrandTone)
  : Handler unit :=
  seq (setPrompt p)
  (seq (setSelectedStyleId styleId)
  (seq (setBrandTone tone) (setIsSidebarOpen true))).

(** The arguments of the three inspiration cards. *)
Definition inspirations : list (string * string * BrandTone) :=
  [ ("High-end minimalist chair in a sunlit concrete room, soft shadows, architectural digest style",
     "3d-render", minimalist);
    ("Cyberpunk street food vendor in Tokyo, rainy night, neon signs reflection, steam rising, cinematic",
     "cyberpunk", energetic);
    ("Elegant perfume bottle on black marble, gold accents, dramatic rim lighting, luxury advertising",
     "cinematic", luxury) ].

(** What [handleDownload] gives the link it clicks. *)
Record Link := mkLink {
  href : string;
  download : string
}.

(** [link.href = img.data; link.download = `gemini-vision-${img.id.slice(0, 8)}.png`;] *)
Definition handleDownload (img : GeneratedImage) : Link :=
  mkLink (img_data img)
         ("gemini-vision-" ++ slice 0 8 (img_id img) ++ ".png").

(** *** The session: one user action after another *)

(** What the user, the file reader or a timer can do to the component;
    an action that calls the service carries what the outside answers
    during it. *)
Inductive Action :=
| ChangePrompt (v : string)               (* the prompt text area *)
| ChangeNegativePrompt (v : string)
| ChangeBrandTone (v : BrandTone)         (* the tone select *)
| ChangeAspectRatio (v : AspectRatio)     (* the format select *)
| SelectStyle (v : string)                (* [onSelect(style.id)] *)
| LoadReference (result : string)         (* [reader.onloadend] *)
| RemoveReference
| DismissError
| ClickSurprise (env : Env) (pick : nat)
| ClickEnhance (env : Env)
| ClickGenerate (env : Env)
| PressKey (env : Env) (e : KeyboardEvent) (shown : option string)
| ClickHistory (n : nat)                  (* the thumbnail of [history[n]] *)
| ClickInspiration (p styleId : string) (tone : BrandTone)
| RefinedTimeout                          (* the timeout of [handleEnhancePrompt] *)
| SetSidebar (v : bool)
| Resize (width : nat).

(** The cells as the key listener sees them.  The effect that installs
    it runs again only when one of [prompt], [referenceImage],
    [selectedStyleId], [aspectRatio], [negativePrompt], [brandTone]
    changes: of what [handleGenerate] reads, these are current, and
    [errorMessage] is the one of that earlier render ([shown]). *)
Definition listenerView (shown : option string) (s : State) : State :=
  stateAfter (setErrorMessage shown) s.

(** The cells after an action that runs to its end on the cells [s];
    a disabled button does nothing. *)
Definition step (a : Action) (s : State) : State :=
  match a with
  | ChangePrompt v => stateAfter (setPrompt v) s
  | ChangeNegativePrompt v => stateAfter (setNegativePrompt v) s
  | ChangeBrandTone v => stateAfter (setBrandTone v) s
  | ChangeAspectRatio v => stateAfter (setAspectRatio v) s
  | SelectStyle v => stateAfter (setSelectedStyleId v) s
  | LoadReference result => stateAfter (setReferenceImage (Some result)) s
  | RemoveReference => stateAfter (setReferenceImage None) s
  | DismissError => stateAfter (setErrorMessage None) s
  | ClickSurprise env pick =>
      if surpriseDisabled s then s
      else stateAfter (handleSurpriseMe env s pick) s
  | ClickEnhance env =>
      if enhanceDisabled s then s
      else stateAfter (handleEnhancePrompt env s) s
  | ClickGenerate env =>
      if generateDisabled s then s
      else stateAfter (handleGenerate env s) s
  | PressKey env e shown =>
      stateAfter (handleKeyDown env (listenerView shown s) e) s
  | ClickHistory n =>
      match nth_error (history s) n with
      | Some img => stateAfter (setCurrentImage (Some img)) s
      | None => s
      end
  | ClickInspiration p styleId tone =>
      stateAfter (setInspiration p styleId tone) s
  | RefinedTimeout => stateAfter (setJustRefined false) s
  | SetSidebar v => stateAfter (setIsSidebarOpen v) s
  | Resize width =>
      if Nat.leb width 768 then s else stateAfter (setIsSidebarOpen true) s
  end.

(** A session: the actions in the order they happen. *)
Definition session (actions : list Action) (s : State) : State :=
  fold_left (fun s a => step a s) actions s.

(** The image shown is one of the history. *)
Definition shownFromHistory (s : State) : Prop :=
  match currentImage s with
  | Some img => In img (history s)
  | None => True
  end.

(** An image as [generateImage] returns them. *)
Definition pngDataUrl (img : GeneratedImage) : Prop :=
  exists d, d <> EmptyString /\ img_data img = "data:image/png;base64," ++ d.

End App.

(* ================================================================= *)
(** ** The composition contract, in the words of the specification *)

Module ComposerSpec.
Import Types.

Section WithCatalog.
Variable catalog : list StylePreset.

(** "styleModifier (if styleId is not "none" and exists in catalog)" *)
Definition styleFragment (styleId : string) : string :=
  if String.eqb styleId "none" then EmptyString
  else
    match find (fun s => String.eqb (id s) styleId) catalog with
    | Some s => promptModifier s
    | None => EmptyString
    end.

(** "toneKeywordFragment (if tone is not default)" *)
Definition toneFragment (tone : BrandTone) : string :=
  match tone with
  | default => EmptyString
  | _ => Composer.toneModifiers tone
  end.

(** What "doubled separators" are. *)
Definition doubled : string := Composer.separator ++ Composer.separator.

(** "omitting any empty fragment" *)
Definition nonEmpty (f : string) : bool :=
  negb (String.eqb f EmptyString).

(** "join-with-period-separator of [styleModifier, toneKeywordFragment,
    rawUserPrompt], omitting any empty fragment" *)
Definition finalPrompt (styleId : string) (tone : BrandTone)
           (rawUserPrompt : string) : string :=
  JS.join Composer.separator
    (filter nonEmpty
            [styleFragment styleId; toneFragment tone; rawUserPrompt]).

End WithCatalog.

End ComposerSpec.

(* ================================================================= *)
(** ** The response contract, in the words of the specification *)

Module ResponseSpec.
Import GenAI.

(** "a part carrying an inline image payload": the payload. *)
Definition payloadOf (part : Part) : option string :=
  match inlineData part with
  | Some blob =>
      match data blob with
      | Some d => if JS.truthy d then Some d else None
      | None => None
      end
  | None => None
  end.

End ResponseSpec.

(* ================================================================= *)
(** * Facts about the string primitives *)

Section StringFacts.
Import JS.

Lemma append_empty_r (s : string) : s ++ EmptyString = s.
Proof. induction s as [|c s IH]; simpl; [reflexivity | now rewrite IH]. Qed.

Lemma append_assoc (a b c : string) : (a ++ b) ++ c = a ++ b ++ c.
Proof. induction a as [|x a IH]; simpl; [reflexivity | now rewrite IH]. Qed.

(** Two ways of cutting one string: one cut is inside the other's
    left part. *)
Lemma append_eq_append (x y a b : string) :
  x ++ y = a ++ b ->
  exists m, (x = a ++ m /\ b = m ++ y) \/ (a = x ++ m /\ y = m ++ b).
Proof.
  revert a. induction x as [|c x IH]; intros a H; simpl in H.
  - exists a. right. split; [reflexivity | assumption].
  - destruct a as [|d a]; simpl in H.
    + exists (String c x). left. split; [reflexivity | now symmetry].
    + injection H as Hc H. subst d.
      destruct (IH a H) as [m [[H1 H2] | [H1 H2]]]; exists m;
        [left | right]; subst; split; reflexivity.
Qed.

Lemma startsWith_spec (p s : string) :
  startsWith p s = true <-> exists t, s = p ++ t.
Proof.
  revert s. induction p as [|a p IH]; intros s; simpl.
  - split; [intros _; now exists s | reflexivity].
  - destruct s as [|b s].
    + split; [discriminate | intros [t H]; discriminate].
    + rewrite andb_true_iff, Ascii.eqb_eq, IH. split.
      * intros [-> [t ->]]. now exists t.
      * intros [t H]. injection H as -> ->. split; [reflexivity | now exists t].
Qed.

Lemma endsWith_spec (p s : string) :
  endsWith p s = true <-> exists t, s = t ++ p.
Proof.
  induction s as [|c s IH]; simpl.
  - rewrite orb_false_r, String.eqb_eq. split.
    + intros ->. now exists EmptyString.
    + intros [t H]. destruct t; simpl in H; [now symmetry | discriminate].
  - rewrite orb_true_iff, String.eqb_eq, IH. split.
    + intros [-> | [t ->]]; [now exists EmptyString | now exists (String c t)].
    + intros [t H]. destruct t as [|d t]; simpl in H.
      * left. now symmetry.
      * injection H as _ H. right. now exists t.
Qed.

Lemma includes_spec (p s : string) :
  includes p s = true <-> exists a b, s = a ++ p ++ b.
Proof.
  induction s as [|c s IH]; simpl.
  - rewrite orb_false_r, startsWith_spec. split.
    + intros [t H]. now exists EmptyString, t.
    + intros [a [b H]]. destruct a; simpl in H; [now exists b | discriminate].
  - rewrite orb_true_iff, startsWith_spec, IH. split.
    + intros [[t H] | [a [b H]]].
      * now exists EmptyString, t.
      * exists (String c a), b. simpl. now rewrite H.
    + intros [a [b H]]. destruct a as [|d a]; simpl in H.
      * left. now exists b.
      * injection H as _ H. right. now exists a, b.
Qed.

(** A string that is part of a concatenation is included in it. *)
Lemma includes_middle (a p b : string) : includes p (a ++ p ++ b) = true.
Proof. apply includes_spec. now exists a, b. Qed.

Lemma truthy_true (s : string) : truthy s = true <-> s <> EmptyString.
Proof. destruct s; simpl; split; congruence. Qed.

End StringFacts.

(* ================================================================= *)
(** * Joining fragments with the separator *)

Section JoinFacts.
Import JS.

Import Composer ComposerSpec.


Lemma join_cons (sep x y : string) (l : list string) :
  join sep (x :: y :: l) = x ++ sep ++ join sep (y :: l).
Proof. reflexivity. Qed.

(** Joining fragments that are not blank puts no separator in front. *)
Lemma join_leading (l : list string) :
  Forall (fun f => Composer.nonBlank f = true) l ->
  startsWith separator (join separator l) = true ->
  exists f rest, l = f :: rest /\ startsWith separator f = true.
Proof.
  intros Hl H. destruct l as [|f rest]; [discriminate|].
  exists f, rest. split; [reflexivity|].
  inversion Hl as [|? ? Hf _]; subst.
  destruct rest as [|g rest]; [exact H|].
  rewrite join_cons in H.
  destruct f as [|c [|d f]]; [discriminate Hf | | ].
  - simpl in H. rewrite andb_false_r in H. discriminate.
  - simpl in *. exact H.
Qed.

Lemma join_not_blank (f : string) (l : list string) :
  Composer.nonBlank f = true ->
  join separator (f :: l) <> EmptyString /\ join separator (f :: l) <> " ".
Proof.
  intros Hf. destruct l as [|g l].
  - simpl. split; intros ->; discriminate.
  - rewrite join_cons.
    destruct f as [|c [|d f]]; [discriminate | |]; split; discriminate.
Qed.

(** ... and none behind. *)
Lemma join_trailing (l : list string) :
  Forall (fun f => Composer.nonBlank f = true) l ->
  endsWith separator (join separator l) = true ->
  exists f init, l = (init ++ [f])%list /\ endsWith separator f = true.
Proof.
  induction l as [|f l IH]; intros Hl H; [discriminate|].
  inversion Hl as [|? ? Hf Hl']; subst.
  destruct l as [|g l].
  - exists f, []. split; [reflexivity | exact H].
  - assert (Hy : endsWith separator (join separator (g :: l)) = true).
    { rewrite join_cons in H. apply endsWith_spec in H. destruct H as [t H].
      rewrite <- append_assoc in H.
      destruct (append_eq_append _ _ _ _ H) as [m [[_ H2] | [_ H2]]].
      - inversion Hl' as [|? ? Hg _]; subst.
        destruct (join_not_blank g l Hg) as [N1 N2].
        set (y := join separator (g :: l)) in *.
        unfold separator in H2 at 1.
        destruct m as [|c1 [|c2 [|c3 m]]]; cbn [append] in H2.
        + rewrite <- H2. reflexivity.
        + injection H2 as _ H2. now symmetry in H2.
        + injection H2 as _ _ H2. now symmetry in H2.
        + discriminate H2.
      - apply endsWith_spec. now exists m. }
    destruct (IH Hl' Hy) as [f' [init [E Hf']]].
    exists f', (f :: init). split; [|exact Hf'].
    simpl. now rewrite <- E.
Qed.

(** ... and doubles none between two fragments. *)
Lemma join_doubled (l : list string) :
  Forall (fun f => Composer.nonBlank f = true) l ->
  includes doubled (join separator l) = true ->
  exists f, In f l /\
            (startsWith separator f = true \/ endsWith separator f = true
             \/ includes doubled f = true).
Proof.
  induction l as [|f l IH]; intros Hl H; [discriminate|].
  inversion Hl as [|? ? Hf Hl']; subst.
  destruct l as [|g l].
  - exists f. split; [now left | auto].
  - set (y := join separator (g :: l)) in *.
    assert (Hlead : forall b, y = separator ++ b ->
              exists f0, In f0 (f :: g :: l) /\
                (startsWith separator f0 = true \/
                 endsWith separator f0 = true \/
                 includes doubled f0 = true)).
    { intros b E.
      destruct (join_leading (g :: l) Hl') as [f0 [rest [E0 S0]]].
      - apply startsWith_spec. now exists b.
      - exists f0. split; [right; rewrite E0; now left | auto]. }
    assert (Hin : includes doubled y = true ->
              exists f0, In f0 (f :: g :: l) /\
                (startsWith separator f0 = true \/
                 endsWith separator f0 = true \/
                 includes doubled f0 = true)).
    { intros I. destruct (IH Hl' I) as [f0 [I0 P0]].
      exists f0. split; [now right | exact P0]. }
    rewrite join_cons in H. fold y in H.
    apply includes_spec in H. destruct H as [a [b H]].
    destruct (append_eq_append _ _ _ _ H) as [m [[H1 H2] | [H1 H2]]].
    + (* the occurrence starts inside [f] *)
      destruct (append_eq_append _ _ _ _ H2) as [n [[H3 H4] | [H3 H4]]].
      * unfold doubled, separator in H3, H4.
        destruct m as [|c1 [|c2 [|c3 [|c4 [|c5 m]]]]]; simpl in H3;
          try discriminate H3.
        -- subst n. simpl in H4. injection H4 as H4.
           apply (Hlead b). exact H4.
        -- injection H3 as _ H3. subst n. discriminate H4.
        -- injection H3 as E1 E2 H3. subst c1 c2 n.
           exists f. split; [now left|]. right; left.
           apply endsWith_spec. now exists a.
        -- injection H3 as _ _ _ H3. subst n. discriminate H4.
        -- injection H3 as E1 E2 E3 E4 H3. subst c1 c2 c3 c4.
           exists f. split; [now left|]. right; right.
           apply includes_spec. exists a, EmptyString. exact H1.
      * exists f. split; [now left|]. right; right.
        apply includes_spec. exists a, n. now rewrite H1, H3.
    + (* the occurrence starts at the separator or after it *)
      destruct (append_eq_append _ _ _ _ H2) as [n [[H3 H4] | [H3 H4]]].
      * unfold doubled, separator in H3, H4.
        destruct m as [|c1 [|c2 [|c3 m]]]; simpl in H3;
          try discriminate H3.
        -- subst n. simpl in H4. injection H4 as H4.
           apply (Hlead b). now symmetry.
        -- injection H3 as _ H3. subst n.
           destruct y; discriminate H4 || (injection H4 as H4 _; discriminate H4).
        -- injection H3 as _ _ H3. subst n. simpl in H4.
           apply Hin. apply includes_spec. exists EmptyString, b.
           now symmetry.
      * apply Hin. apply includes_spec. now exists n, b.
Qed.

End JoinFacts.

(* ================================================================= *)
(** * The prompt composer *)

Section ComposerFacts.
Import JS Types.
Variable catalog : list StylePreset.

(** The code's test [style && style.id !== 'none'] selects the
    modifier exactly when the id is listed and is not ["none"]. *)
Lemma styleMod_styleFragment (styleId : string) :
  Composer.styleMod catalog styleId
  = ComposerSpec.styleFragment catalog styleId.
Proof.
  unfold Composer.styleMod, ComposerSpec.styleFragment.
  destruct (find (fun s => String.eqb (id s) styleId) catalog) as [s|] eqn:F.
  - apply find_some in F. destruct F as [_ F].
    apply String.eqb_eq in F. rewrite F.
    now destruct (String.eqb styleId "none").
  - now destruct (String.eqb styleId "none").
Qed.

Lemma toneMod_toneFragment (tone : BrandTone) :
  Composer.toneMod tone = ComposerSpec.toneFragment tone.
Proof. now destruct tone. Qed.

Lemma styleMod_unlisted (styleId : string) :
  (forall s, In s catalog -> id s <> styleId) ->
  Composer.styleMod catalog styleId = EmptyString.
Proof.
  intros H. unfold Composer.styleMod.
  destruct (find (fun s => String.eqb (id s) styleId) catalog) as [s|] eqn:F;
    [|reflexivity].
  apply find_some in F. destruct F as [I F].
  apply String.eqb_eq in F. now destruct (H s I).
Qed.

Lemma styleMod_none : Composer.styleMod catalog "none" = EmptyString.
Proof.
  rewrite styleMod_styleFragment. reflexivity.
Qed.

Lemma parts_not_blank (styleId : string) (tone : BrandTone) (raw : string) :
  Forall (fun f => Composer.nonBlank f = true) (Composer.parts catalog styleId tone raw).
Proof.
  unfold Composer.parts. apply Forall_forall. intros f I.
  apply filter_In in I. now destruct I as [_ I].
Qed.

End ComposerFacts.

(** C3, as the claim states it, fails: a prompt made of one space (the
    request being allowed by a reference image) is left out of the
    composed prompt, where the claim keeps every fragment that is not
    empty and so ends the result with a separator and the space. *)
Lemma finalPrompt_blank_counterexample :
  let s :=
    App.mkState " " EmptyString Types.R1_1 "none" Types.luxury
                (Some "data:image/png;base64,iVBORw0KGgo=")
                Types.IDLE false None false [] None true in
  App.nothingToGenerate s = false
  /\ Types.prompt (App.config s)
     = Composer.finalPrompt Styles.STYLES "none" Types.luxury " "
  /\ Composer.finalPrompt Styles.STYLES "none" Types.luxury " "
     = Composer.toneModifiers Types.luxury
  /\ ComposerSpec.finalPrompt Styles.STYLES "none" Types.luxury " "
     = Composer.toneModifiers Types.luxury ++ ". " ++ " "
  /\ Composer.finalPrompt Styles.STYLES "none" Types.luxury " "
     <> ComposerSpec.finalPrompt Styles.STYLES "none" Types.luxury " ".
Proof.
  repeat split; try reflexivity. discriminate.
Qed.

(** C3 (amended): for every catalog, style id, tone and raw prompt, the
    composed prompt is the join with [". "] of the style modifier (only
    when the id is listed and is not ["none"]), the tone keywords (only
    when the tone is not the default) and the raw prompt, in this order,
    leaving out every fragment that is empty or made of white space
    only; an id that is not listed counts as no style; and the result
    starts with, ends with or doubles the separator only where one of
    the joined fragments does so itself. *)
Theorem finalPrompt_composition
  (catalog : list Types.StylePreset) (styleId : string)
  (tone : Types.BrandTone) (raw : string) :
  let kept :=
    filter Composer.nonBlank
           [ComposerSpec.styleFragment catalog styleId;
            ComposerSpec.toneFragment tone; raw] in
  let result := Composer.finalPrompt catalog styleId tone raw in
  result = JS.join ". " kept
  /\ ((forall s, In s catalog -> Types.id s <> styleId) ->
      result = JS.join ". "
                 (filter Composer.nonBlank
                         [ComposerSpec.toneFragment tone; raw]))
  /\ (JS.startsWith ". " result = true ->
      exists f rest, kept = f :: rest /\ JS.startsWith ". " f = true)
  /\ (JS.endsWith ". " result = true ->
      exists f init, kept = (init ++ [f])%list /\ JS.endsWith ". " f = true)
  /\ (JS.includes ". . " result = true ->
      exists f, In f kept /\
                (JS.startsWith ". " f = true \/ JS.endsWith ". " f = true
                 \/ JS.includes ". . " f = true)).
Proof.
  intros kept result.
  assert (E : Composer.parts catalog styleId tone raw = kept).
  { unfold Composer.parts, kept.
    rewrite styleMod_styleFragment, toneMod_toneFragment. reflexivity. }
  assert (R : result = JS.join ". " kept).
  { unfold result, Composer.finalPrompt. now rewrite E. }
  pose proof (parts_not_blank catalog styleId tone raw) as NB.
  rewrite E in NB.
  split; [exact R|]. split; [|rewrite R; split; [|split]].
  - intros U. unfold result, Composer.finalPrompt, Composer.parts.
    rewrite (styleMod_unlisted catalog styleId U), toneMod_toneFragment.
    reflexivity.
  - apply (join_leading kept NB).
  - apply (join_trailing kept NB).
  - apply (join_doubled kept NB).
Qed.

(** The end-to-end example of the specification, through the theorem:
    the cinematic style is listed, the tone is not the default. *)
Lemma finalPrompt_composition_witness :
  Composer.finalPrompt Styles.STYLES "cinematic" Types.luxury "a red bicycle"
  = "Cinematic lighting, 8k resolution, photorealistic, depth of field, anamorphic lens flare, movie still. luxury aesthetic, premium textures, gold and marble accents, dramatic rim lighting, sophisticated, high-end. a red bicycle"
  /\ Composer.finalPrompt Styles.STYLES "oil" Types.default "a red bicycle"
     = "a red bicycle".
Proof.
  split.
  - rewrite (proj1 (finalPrompt_composition Styles.STYLES "cinematic"
                      Types.luxury "a red bicycle")).
    reflexivity.
  - rewrite (proj1 (proj2 (finalPrompt_composition Styles.STYLES "oil"
                             Types.default "a red bicycle"))).
    + reflexivity.
    + intros s I. simpl in I.
      repeat (destruct I as [<- | I]; [discriminate|]).
      destruct I.
Defined.

(* ================================================================= *)
(** * The header pattern of [generateImage] *)

Section RegexFacts.
Import JS Regex.

Lemma exec_lits (p : string) (q : pattern) (s : string) :
  exec (lits p ++ q)%list (p ++ s) = exec q s.
Proof.
  induction p as [|c p IH]; simpl; [reflexivity|].
  now rewrite Ascii.eqb_refl.
Qed.

Lemma exec_lits_only (p s : string) : exec (lits p) (p ++ s) = Some s.
Proof.
  rewrite <- (app_nil_r (lits p)). apply exec_lits.
Qed.

(** The greedy [\w+] takes a run of word characters whole when what
    follows the run is not a word character and the rest of the
    pattern matches there. *)
Lemma star_run (k : string -> option string) (w rest r : string) :
  every isWord w = true ->
  (forall c t, rest = String c t -> isWord c = false) ->
  k rest = Some r ->
  star isWord k (w ++ rest) = Some r.
Proof.
  intros Hw Hrest Hk. induction w as [|c w IH]; simpl in *.
  - destruct rest as [|d t]; simpl; [exact Hk|].
    now rewrite (Hrest d t eq_refl).
  - apply andb_true_iff in Hw. destruct Hw as [Hc Hw].
    now rewrite Hc, (IH Hw).
Qed.

(** No match of [;base64,] starts at a character that is not [;]. *)
Lemma exec_semicolon_fails (c : ascii) (s : string) :
  Ascii.eqb ";" c = false -> exec (lits ";base64,") (String c s) = None.
Proof. intros H. cbn [lits exec]. now rewrite H. Qed.

(** When the text after [data:image/] has, before any [;], a character
    that is not a word character, [\w+;base64,] matches at none of its
    positions. *)
Lemma star_stuck (sub rest : string) :
  every (fun c => negb (Ascii.eqb ";" c)) sub = true ->
  every isWord sub = false ->
  star isWord (exec (lits ";base64,")) (sub ++ rest) = None.
Proof.
  induction sub as [|c sub IH]; intros Hs Hw; [discriminate|].
  simpl in Hs. apply andb_true_iff in Hs. destruct Hs as [Hc Hs].
  apply negb_true_iff in Hc.
  cbn [append star].
  destruct (isWord c) eqn:W.
  - simpl in Hw. rewrite W in Hw. simpl in Hw.
    rewrite (IH Hs Hw). now apply exec_semicolon_fails.
  - now apply exec_semicolon_fails.
Qed.

Lemma header_stripped (sub payload : string) :
  sub <> EmptyString ->
  every isWord sub = true ->
  Gemini.base64Data ("data:image/" ++ sub ++ ";base64," ++ payload) = payload.
Proof.
  intros Hne Hw. unfold Gemini.base64Data, replace, dataUrlHeader.
  rewrite exec_lits.
  destruct sub as [|c sub]; [now destruct Hne|].
  simpl in Hw. apply andb_true_iff in Hw. destruct Hw as [Hc Hw].
  cbn [app exec append]. rewrite Hc.
  rewrite (star_run _ sub (";base64," ++ payload) payload Hw); [reflexivity| |].
  - intros d t E. injection E as <- _. reflexivity.
  - apply exec_lits_only.
Qed.

Lemma header_kept (sub payload : string) :
  every (fun c => negb (Ascii.eqb ";" c)) sub = true ->
  every isWord sub = false ->
  Gemini.base64Data ("data:image/" ++ sub ++ ";base64," ++ payload)
  = "data:image/" ++ sub ++ ";base64," ++ payload.
Proof.
  intros Hs Hw. unfold Gemini.base64Data, replace, dataUrlHeader.
  rewrite exec_lits.
  destruct sub as [|c sub]; [discriminate|].
  cbn [app exec append].
  destruct (isWord c) eqn:W; [|reflexivity].
  simpl in Hs, Hw. rewrite W in Hw.
  apply andb_true_iff in Hs. destruct Hs as [_ Hs].
  now rewrite (star_stuck sub _ Hs Hw).
Qed.

End RegexFacts.

(* ================================================================= *)
(** * The Prompt Enhancement Client *)

Section InstructionFacts.
Import JS.

Lemma includes_here (p b : string) : includes p (p ++ b) = true.
Proof. apply (includes_middle EmptyString p b). Qed.

Lemma includes_later (p a s : string) :
  includes p s = true -> includes p (a ++ s) = true.
Proof.
  intros H. apply includes_spec in H. destruct H as [x [y ->]].
  apply includes_spec. exists (a ++ x), y. now rewrite append_assoc.
Qed.

Lemma includes_last (p a : string) : includes p (a ++ p) = true.
Proof.
  apply includes_spec. exists a, EmptyString. now rewrite append_empty_r.
Qed.

Lemma includes_here3 (x y z b : string) :
  includes (x ++ y ++ z) (x ++ y ++ z ++ b) = true.
Proof.
  apply includes_spec. exists EmptyString, b. now rewrite !append_assoc.
Qed.

End InstructionFacts.

(** Finds a fragment in a template written as a chain of [++]. *)
Ltac find_fragment :=
  repeat first [ apply includes_here | apply includes_last
               | apply includes_later ].

Section TableFacts.
Import JS Types.

(** Where the template puts the texts it selects. *)
Lemma enhanceContents_includes (rawPrompt tone ratio : string) :
  includes (Gemini.toneInstruction tone)
           (Gemini.enhanceContents rawPrompt tone ratio) = true
  /\ includes (dquote ++ Gemini.ratioKeywords ratio ++ dquote)
              (Gemini.enhanceContents rawPrompt tone ratio) = true.
Proof.
  split; unfold Gemini.enhanceContents.
  - find_fragment.
  - repeat first [ apply includes_here3 | apply includes_later ].
Qed.

(** A tone that is none of the five named ones, [default] included,
    falls to the [default] branch. *)
Lemma toneInstruction_unnamed (tone : string) :
  (forall t, t <> default -> tone <> toneValue t) ->
  Gemini.toneInstruction tone
  = "Brand Tone: High-quality professional photography with balanced composition.".
Proof.
  intros H. unfold Gemini.toneInstruction.
  destruct (String.eqb tone "minimalist") eqn:E1;
    [apply String.eqb_eq in E1; now destruct (H minimalist)|].
  destruct (String.eqb tone "luxury") eqn:E2;
    [apply String.eqb_eq in E2; now destruct (H luxury)|].
  destruct (String.eqb tone "energetic") eqn:E3;
    [apply String.eqb_eq in E3; now destruct (H energetic)|].
  destruct (String.eqb tone "corporate") eqn:E4;
    [apply String.eqb_eq in E4; now destruct (H corporate)|].
  destruct (String.eqb tone "playful") eqn:E5;
    [apply String.eqb_eq in E5; now destruct (H playful)|].
  reflexivity.
Qed.

(** A ratio that is none of the five listed falls to the [default]
    branch. *)
Lemma ratioKeywords_unlisted (ratio : string) :
  (forall r, ratio <> ratioValue r) ->
  Gemini.ratioKeywords ratio = "balanced composition".
Proof.
  intros H. unfold Gemini.ratioKeywords.
  destruct (String.eqb ratio "16:9") eqn:E1;
    [apply String.eqb_eq in E1; now destruct (H R16_9)|].
  destruct (String.eqb ratio "9:16") eqn:E2;
    [apply String.eqb_eq in E2; now destruct (H R9_16)|].
  destruct (String.eqb ratio "1:1") eqn:E3;
    [apply String.eqb_eq in E3; now destruct (H R1_1)|].
  destruct (String.eqb ratio "4:3") eqn:E4;
    [apply String.eqb_eq in E4; now destruct (H R4_3)|].
  destruct (String.eqb ratio "3:4") eqn:E5;
    [apply String.eqb_eq in E5; now destruct (H R3_4)|].
  reflexivity.
Qed.

End TableFacts.

(** C6: the instruction that [enhancePrompt] sends (its one request)
    contains, verbatim, the instruction text of the tone and, between
    double quotes, the mandatory keywords of the ratio: for each of the
    five named tones and each of the five ratios the texts below, and
    for the default tone, any other tone value and any other ratio
    value the texts of the [default] branches. *)
Theorem enhance_instruction_verbatim (ai : GenAI.Client)
        (rawPrompt tone ratio : string) :
  let instruction := Gemini.enhanceContents rawPrompt tone ratio in
  snd (GenAI.run (Gemini.enhancePrompt ai rawPrompt tone ratio))
  = [GenAI.mkParameters "gemini-2.5-flash" (GenAI.OfString instruction) None]
  /\ (forall t : Types.BrandTone,
        tone = Types.toneValue t ->
        JS.includes
          match t with
          | Types.default =>
              "Brand Tone: High-quality professional photography with balanced composition."
          | Types.minimalist =>
              "Brand Tone: 'Minimalist'. Focus on clean lines, negative space, desaturated palettes, soft diffused lighting, and simplicity."
          | Types.luxury =>
              "Brand Tone: 'Luxury'. Emphasize elegance, premium materials (gold, marble, silk), dramatic rim lighting, depth of field, and sophistication."
          | Types.energetic =>
              "Brand Tone: 'Energetic'. Use dynamic composition, motion blur, vibrant neon or saturated colors, high contrast, and action-oriented angles."
          | Types.corporate =>
              "Brand Tone: 'Corporate'. Ensure a professional, trustworthy look with blue/grey tones, structured symmetrical composition, and bright, even studio lighting."
          | Types.playful =>
              "Brand Tone: 'Playful'. Use soft rounded shapes, pastel or bright primary colors, warm high-key lighting, and a whimsical or inviting atmosphere."
          end instruction = true)
  /\ ((forall t, t <> Types.default -> tone <> Types.toneValue t) ->
      JS.includes
        "Brand Tone: High-quality professional photography with balanced composition."
        instruction = true)
  /\ (forall r : Types.AspectRatio,
        ratio = Types.ratioValue r ->
        JS.includes
          (JS.dquote ++
           match r with
           | Types.R16_9 =>
               "wide shot, cinematic composition, panoramic view, 16:9 aspect ratio"
           | Types.R9_16 =>
               "vertical shot, portrait mode, tall composition, 9:16 aspect ratio"
           | Types.R1_1 =>
               "square composition, symmetrical framing, centered subject"
           | Types.R4_3 => "4:3 standard photography aspect ratio"
           | Types.R3_4 => "3:4 standard portrait aspect ratio"
           end ++ JS.dquote) instruction = true)
  /\ ((forall r, ratio <> Types.ratioValue r) ->
      JS.includes (JS.dquote ++ "balanced composition" ++ JS.dquote)
                  instruction = true).
Proof.
  intros instruction.
  destruct (enhanceContents_includes rawPrompt tone ratio) as [T K].
  fold instruction in T, K.
  split; [|split; [|split; [|split]]].
  - unfold GenAI.run, Gemini.enhancePrompt, GenAI.bind, GenAI.generateContent.
    now destruct (ai _).
  - intros t E. rewrite E in T. destruct t; exact T.
  - intros U. now rewrite (toneInstruction_unnamed tone U) in T.
  - intros r E. rewrite E in K. destruct r; exact K.
  - intros U. now rewrite (ratioKeywords_unlisted ratio U) in K.
Qed.

(** The luxury tone in the landscape format, and a tone and a ratio
    that are not listed. *)
Lemma enhance_instruction_verbatim_witness :
  (JS.includes
     "Brand Tone: 'Luxury'. Emphasize elegance, premium materials (gold, marble, silk), dramatic rim lighting, depth of field, and sophistication."
     (Gemini.enhanceContents "a red bicycle" "luxury" "16:9") = true
   /\ JS.includes
        (JS.dquote
         ++ "wide shot, cinematic composition, panoramic view, 16:9 aspect ratio"
         ++ JS.dquote)
        (Gemini.enhanceContents "a red bicycle" "luxury" "16:9") = true)
  /\ (JS.includes
        "Brand Tone: High-quality professional photography with balanced composition."
        (Gemini.enhanceContents "a red bicycle" "vintage" "21:9") = true
      /\ JS.includes (JS.dquote ++ "balanced composition" ++ JS.dquote)
           (Gemini.enhanceContents "a red bicycle" "vintage" "21:9") = true).
Proof.
  destruct (enhance_instruction_verbatim
              (fun _ => GenAI.Thrown (GenAI.Error "offline"))
              "a red bicycle" "luxury" "16:9") as [_ [T [_ [K _]]]].
  destruct (enhance_instruction_verbatim
              (fun _ => GenAI.Thrown (GenAI.Error "offline"))
              "a red bicycle" "vintage" "21:9") as [_ [_ [T' [_ K']]]].
  split; split.
  - exact (T Types.luxury eq_refl).
  - exact (K Types.R16_9 eq_refl).
  - apply T'. intros t N. destruct t; discriminate.
  - apply K'. intros r. destruct r; discriminate.
Defined.

(* ================================================================= *)
(** * Fallbacks of the two text clients *)

Section FallbackFacts.
Import JS GenAI.

(** [text?.trim() || d]: the trimmed text unless it is missing or
    nothing is left of it. *)
Lemma orElse_trim (t : option string) (d : string) :
  Gemini.orElse (option_map trim t) d
  = match t with
    | Some s => if String.eqb (trim s) EmptyString then d else trim s
    | None => d
    end.
Proof.
  destruct t as [s|]; [|reflexivity]. simpl.
  now destruct (trim s).
Qed.

Lemma enhancePrompt_value (ai : Client) (rawPrompt tone ratio : string) :
  fst (run (Gemini.enhancePrompt ai rawPrompt tone ratio))
  = match ai (Gemini.enhanceRequest rawPrompt tone ratio) with
    | Returned response =>
        Gemini.orElse (option_map trim (response_text response)) rawPrompt
    | Thrown _ => rawPrompt
    end.
Proof.
  unfold run, Gemini.enhancePrompt, bind, generateContent.
  now destruct (ai _).
Qed.

Lemma suggestCreativePrompt_value (ai : Client) (tone ratio : string) :
  fst (run (Gemini.suggestCreativePrompt ai tone ratio))
  = match ai (Gemini.suggestRequest tone ratio) with
    | Returned response =>
        Gemini.orElse (option_map trim (response_text response))
                      Gemini.floatingCity
    | Thrown _ => Gemini.cyberpunkDetective
    end.
Proof.
  unfold run, Gemini.suggestCreativePrompt, bind, generateContent.
  now destruct (ai _).
Qed.

End FallbackFacts.

(** C7, as the claim states it, fails: the service answers with a text
    that is neither missing nor empty (one space), and the client
    returns the raw prompt, not the trimmed text (which is empty). *)
Lemma enhancePrompt_blank_counterexample :
  let answer := GenAI.mkResponse None (Some " ") in
  let ai : GenAI.Client := fun _ => GenAI.Returned answer in
  GenAI.response_text answer <> None
  /\ GenAI.response_text answer <> Some EmptyString
  /\ fst (GenAI.run (Gemini.enhancePrompt ai "a cat" "default" "1:1"))
     = "a cat"
  /\ fst (GenAI.run (Gemini.enhancePrompt ai "a cat" "default" "1:1"))
     <> JS.trim " ".
Proof.
  repeat split; try discriminate; reflexivity.
Qed.

(** C7 (amended): for every raw prompt, tone and ratio, the client
    returns the raw prompt unchanged when the call throws, when the
    response has no text and when the text is empty or made of white
    space only; otherwise it returns the trimmed text. *)
Theorem enhancePrompt_fallback (ai : GenAI.Client)
        (rawPrompt tone ratio : string) :
  fst (GenAI.run (Gemini.enhancePrompt ai rawPrompt tone ratio))
  = match ai (Gemini.enhanceRequest rawPrompt tone ratio) with
    | GenAI.Thrown _ => rawPrompt
    | GenAI.Returned response =>
        match GenAI.response_text response with
        | None => rawPrompt
        | Some t =>
            if String.eqb (JS.trim t) EmptyString then rawPrompt
            else JS.trim t
        end
    end.
Proof.
  rewrite enhancePrompt_value.
  destruct (ai _) as [response|e]; [|reflexivity].
  apply orElse_trim.
Qed.

(** C8, as the claim states it, fails: on a text that is not empty (one
    space) the client returns the floating city string, not the trimmed
    text. *)
Lemma suggestCreativePrompt_blank_counterexample :
  let answer := GenAI.mkResponse None (Some " ") in
  let ai : GenAI.Client := fun _ => GenAI.Returned answer in
  GenAI.response_text answer <> None
  /\ GenAI.response_text answer <> Some EmptyString
  /\ fst (GenAI.run (Gemini.suggestCreativePrompt ai "luxury" "16:9"))
     = Gemini.floatingCity
  /\ fst (GenAI.run (Gemini.suggestCreativePrompt ai "luxury" "16:9"))
     <> JS.trim " ".
Proof.
  repeat split; try discriminate; reflexivity.
Qed.

(** C8 (amended): for every tone and ratio, the client returns the
    trimmed text when the call yields a text of which trimming leaves
    something; the floating city string when the call succeeds with no
    text or a text that is empty or made of white space only; the
    cyberpunk detective string when the call throws.  The two strings
    differ and depend on neither tone nor ratio. *)
Theorem suggestCreativePrompt_fallback (ai : GenAI.Client)
        (tone ratio : string) :
  fst (GenAI.run (Gemini.suggestCreativePrompt ai tone ratio))
  = match ai (Gemini.suggestRequest tone ratio) with
    | GenAI.Thrown _ =>
        "A cyberpunk detective standing in neon rain, digital art style, high contrast."
    | GenAI.Returned response =>
        match GenAI.response_text response with
        | None =>
            "A futuristic city floating in the clouds at golden hour, hyper-realistic, 8k resolution."
        | Some t =>
            if String.eqb (JS.trim t) EmptyString then
              "A futuristic city floating in the clouds at golden hour, hyper-realistic, 8k resolution."
            else JS.trim t
        end
    end
  /\ Gemini.floatingCity <> Gemini.cyberpunkDetective.
Proof.
  split; [|discriminate].
  rewrite suggestCreativePrompt_value.
  destruct (ai _) as [response|e]; [|reflexivity].
  apply orElse_trim.
Qed.

(* ================================================================= *)
(** * The Image Generation Client: the response *)

Section ResponseFacts.
Import JS GenAI ResponseSpec.

Lemma scanParts_cons (part : Part) (rest : list Part) :
  Gemini.scanParts (part :: rest)
  = match payloadOf part with
    | Some d => Some ("data:image/png;base64," ++ d)
    | None => Gemini.scanParts rest
    end.
Proof.
  unfold payloadOf. simpl.
  destruct (inlineData part) as [blob|]; [|reflexivity].
  destruct (data blob) as [d|]; [|reflexivity].
  now destruct (truthy d).
Qed.

(** The scan returns the first payload, wherever it stands. *)
Lemma scanParts_first (before after : list Part) (part : Part) (d : string) :
  Forall (fun p => payloadOf p = None) before ->
  payloadOf part = Some d ->
  Gemini.scanParts (before ++ part :: after)
  = Some ("data:image/png;base64," ++ d).
Proof.
  intros Hb Hp. induction Hb as [|p before Hp0 _ IH].
  - simpl app. now rewrite scanParts_cons, Hp.
  - simpl app. now rewrite scanParts_cons, Hp0.
Qed.

Lemma scanParts_none (ps : list Part) :
  Forall (fun p => payloadOf p = None) ps -> Gemini.scanParts ps = None.
Proof.
  intros H. induction H as [|p ps Hp _ IH]; [reflexivity|].
  now rewrite scanParts_cons, Hp.
Qed.

(** With a first candidate that has parts, the call returns the first
    payload behind the fixed prefix, and fails with the "no image"
    error when no part has one. *)
Lemma parseResponse_first_candidate
      (candidate : Candidate) (others : list Candidate)
      (ps : list Part) (t : option string) :
  content candidate = Some (mkContent (Some ps)) ->
  Gemini.parseResponse (mkResponse (Some (candidate :: others)) t)
  = match Gemini.scanParts ps with
    | Some image => Returned image
    | None => Thrown Gemini.noImageData
    end.
Proof.
  intros H. unfold Gemini.parseResponse. simpl. now rewrite H.
Qed.

(** The image in the second part, the first being text. *)
Lemma parseResponse_second_part (d : string) :
  d <> EmptyString ->
  Gemini.parseResponse
    (mkResponse
       (Some [mkCandidate
                (Some (mkContent
                         (Some [mkPart None (Some "Here is your image");
                                mkPart (Some (mkBlob (Some d)
                                                     (Some "image/png")))
                                       None])))])
       None)
  = Returned ("data:image/png;base64," ++ d).
Proof.
  intros H. unfold Gemini.parseResponse. simpl.
  destruct d; [now destruct H | reflexivity].
Qed.

(** A response without the [candidates] member. *)
Lemma parseResponse_absent (t : option string) :
  Gemini.parseResponse (mkResponse None t) = Thrown Gemini.noImageData.
Proof. reflexivity. Qed.

Lemma generateImage_value (ai : Client) (config : Types.GenerationConfig) :
  run (Gemini.generateImage ai config)
  = (match ai (Gemini.imageRequest config) with
     | Returned response => Gemini.parseResponse response
     | Thrown e => Thrown e
     end, [Gemini.imageRequest config]).
Proof.
  unfold run, Gemini.generateImage, bind, generateContent.
  now destruct (ai _).
Qed.

End ResponseFacts.

(** C4, where the code departs from the claim: a response whose list of
    candidates is empty passes the test [response.candidates && ...]
    (an array is truthy), [response.candidates[0]] is [undefined] and
    reading [content] of it throws a [TypeError]; the call fails, but
    not with the "no image" error the code has for this case. *)
Theorem generateImage_zero_candidates (config : Types.GenerationConfig)
        (t : option string) :
  let ai : GenAI.Client :=
    fun _ => GenAI.Returned (GenAI.mkResponse (Some []) t) in
  fst (GenAI.run (Gemini.generateImage ai config))
  = GenAI.Thrown
      (GenAI.TypeError "Cannot read properties of undefined (reading 'content')")
  /\ fst (GenAI.run (Gemini.generateImage ai config))
     <> GenAI.Thrown (GenAI.Error "No image data found in response.").
Proof.
  intros ai. rewrite generateImage_value. simpl. split; [reflexivity | discriminate].
Qed.

(* ================================================================= *)
(** * The Image Generation Client: the request *)

Section RequestFacts.
Import JS GenAI Types.

Lemma requestParts_reference (config : GenerationConfig) (ref : string) :
  referenceImage config = Some ref ->
  ref <> EmptyString ->
  Gemini.requestParts config
  = [mkPart (Some (mkBlob (Some (Gemini.base64Data ref)) (Some "image/png")))
            None;
     mkPart None (Some (Gemini.fullPrompt config))].
Proof.
  intros H Hne. unfold Gemini.requestParts. rewrite H.
  destruct ref; [now destruct Hne | reflexivity].
Qed.

Lemma header_not_empty (sub payload : string) :
  "data:image/" ++ sub ++ ";base64," ++ payload <> EmptyString.
Proof. discriminate. Qed.

End RequestFacts.

(** C5, where the code departs from the claim: the reference image is
    an SVG data URL, as the file input (which accepts [image/*]) gives
    for an SVG file.  The comment of the code says "Remove data URL
    header if present to get raw base64", but the pattern asks for a
    subtype made of word characters and [svg+xml] has a [+]: the header
    is not stripped, and the one request sent carries the whole string,
    header included, as the data of the inline part, where the claim
    has the payload [PHN2Zz4=] alone. *)
Theorem generateImage_svg_header_kept (ai : GenAI.Client) :
  let config :=
    Types.mkGenerationConfig "a logo" None "1:1" "none"
      (Some "data:image/svg+xml;base64,PHN2Zz4=") in
  snd (GenAI.run (Gemini.generateImage ai config))
  = [GenAI.mkParameters "gemini-2.5-flash-image"
       (GenAI.OfParts
          [GenAI.mkPart
             (Some (GenAI.mkBlob (Some "data:image/svg+xml;base64,PHN2Zz4=")
                                 (Some "image/png"))) None;
           GenAI.mkPart None (Some "a logo. ")])
       (Some "1:1")]
  /\ Gemini.requestParts config
     <> [GenAI.mkPart
           (Some (GenAI.mkBlob (Some "PHN2Zz4=") (Some "image/png"))) None;
         GenAI.mkPart None (Some "a logo. ")].
Proof.
  intros config. split; [|discriminate].
  now rewrite generateImage_value.
Qed.

(** The request of [generateImage], for every configuration: its text
    is the prompt, [". Exclude: "], the negative prompt and ["."] when
    the negative prompt is not empty, and the prompt and [". "]
    otherwise; a reference image is sent as an inline part declared
    [image/png] before the text part, and without it the text part is
    sent alone; a header [data:image/<subtype>;base64,] whose subtype
    is a non-empty run of letters, digits and underscores is stripped
    from it; the aspect ratio parameter is the one of the
    configuration; and this request is the only one sent. *)
Theorem imageRequest_shape (ai : GenAI.Client)
        (config : Types.GenerationConfig) :
  let request := Gemini.imageRequest config in
  let textPart := GenAI.mkPart None (Some (Gemini.fullPrompt config)) in
  let inline d :=
    GenAI.mkPart (Some (GenAI.mkBlob (Some d) (Some "image/png"))) None in
  Gemini.fullPrompt config
  = match Types.negativePrompt config with
    | Some (String c n) =>
        Types.prompt config ++ ". Exclude: " ++ String c n ++ "."
    | _ => Types.prompt config ++ ". "
    end
  /\ GenAI.contents request
     = GenAI.OfParts
         match Types.referenceImage config with
         | Some (String c r) => [inline (Gemini.base64Data (String c r)); textPart]
         | _ => [textPart]
         end
  /\ (forall sub payload,
        Types.referenceImage config
        = Some ("data:image/" ++ sub ++ ";base64," ++ payload) ->
        sub <> EmptyString ->
        JS.every Regex.isWord sub = true ->
        GenAI.contents request = GenAI.OfParts [inline payload; textPart])
  /\ GenAI.imageConfig_aspectRatio request = Some (Types.aspectRatio config)
  /\ snd (GenAI.run (Gemini.generateImage ai config)) = [request].
Proof.
  intros request textPart inline. repeat split.
  - unfold Gemini.fullPrompt.
    destruct (Types.negativePrompt config) as [[|c n]|]; simpl;
      rewrite ?append_assoc; reflexivity.
  - unfold request, Gemini.imageRequest, Gemini.requestParts. simpl.
    now destruct (Types.referenceImage config) as [[|c r]|].
  - intros sub payload H Hne Hw.
    unfold request, Gemini.imageRequest. simpl. f_equal.
    rewrite (requestParts_reference config _ H (header_not_empty _ _)).
    now rewrite (header_stripped sub payload Hne Hw).
  - now rewrite generateImage_value.
Qed.

(** A PNG data URL as the file reader delivers it. *)
Lemma imageRequest_shape_witness :
  let config :=
    Types.mkGenerationConfig "a logo" (Some "text") "16:9" "none"
      (Some ("data:image/" ++ "png" ++ ";base64," ++ "iVBORw0KGgo=")) in
  GenAI.contents (Gemini.imageRequest config)
  = GenAI.OfParts
      [GenAI.mkPart
         (Some (GenAI.mkBlob (Some "iVBORw0KGgo=") (Some "image/png"))) None;
       GenAI.mkPart None (Some "a logo. Exclude: text.")].
Proof.
  intros config.
  apply (proj1 (proj2 (proj2
           (imageRequest_shape (fun _ => GenAI.Thrown (GenAI.Error "offline"))
                               config)))
         "png" "iVBORw0KGgo=").
  - reflexivity.
  - discriminate.
  - reflexivity.
Defined.

(** C10: a reference image whose header names a subtype with a
    character that is not a letter, a digit or an underscore (the
    subtype being the text up to the first [;]) is forwarded as it
    came, header included, in a part declared [image/png]. *)
Theorem reference_header_kept (config : Types.GenerationConfig)
        (sub payload : string) :
  Types.referenceImage config
  = Some ("data:image/" ++ sub ++ ";base64," ++ payload) ->
  JS.every (fun c => negb (Ascii.eqb ";" c)) sub = true ->
  JS.every Regex.isWord sub = false ->
  GenAI.contents (Gemini.imageRequest config)
  = GenAI.OfParts
      [GenAI.mkPart
         (Some (GenAI.mkBlob
                  (Some ("data:image/" ++ sub ++ ";base64," ++ payload))
                  (Some "image/png"))) None;
       GenAI.mkPart None (Some (Gemini.fullPrompt config))].
Proof.
  intros H Hs Hw. unfold Gemini.imageRequest. simpl. f_equal.
  rewrite (requestParts_reference config _ H (header_not_empty _ _)).
  now rewrite (header_kept sub payload Hs Hw).
Qed.

Lemma reference_header_kept_witness :
  GenAI.contents
    (Gemini.imageRequest
       (Types.mkGenerationConfig "a logo" None "1:1" "none"
          (Some ("data:image/" ++ "svg+xml" ++ ";base64," ++ "PHN2Zz4="))))
  = GenAI.OfParts
      [GenAI.mkPart
         (Some (GenAI.mkBlob
                  (Some ("data:image/" ++ "svg+xml" ++ ";base64," ++ "PHN2Zz4="))
                  (Some "image/png"))) None;
       GenAI.mkPart None (Some "a logo. ")].
Proof.
  apply (reference_header_kept
           (Types.mkGenerationConfig "a logo" None "1:1" "none"
              (Some ("data:image/" ++ "svg+xml" ++ ";base64," ++ "PHN2Zz4=")))
           "svg+xml" "PHN2Zz4=");
    reflexivity.
Defined.

(* ================================================================= *)
(** * The Session Orchestrator *)

Section OrchestratorFacts.
Import JS GenAI Types App.
Variable env : Env.
(** The cells the handler's render captured, and the live cells. *)
Variables c s : State.

(** A request that passes the guard: the three stages in turn, and one
    request to the service. *)
Lemma handleGenerate_stages :
  nothingToGenerate c = false ->
  run (handleGenerate env c s)
  = ((tt, stateAfter (finally_ c)
            (stateAfter (settle env c (generated env c))
               (stateAfter (announce env) s))),
     [Gemini.imageRequest (config c)]).
Proof.
  intros G. unfold generated. rewrite generateImage_value.
  unfold handleGenerate, handleGenerateBody. rewrite G. cbn [perform].
  unfold stateAfter, run, seq, App.bind, await, GenAI.bind, announce.
  unfold Gemini.generateImage, GenAI.bind, generateContent, seq, App.bind,
    GenAI.bind, finally_.
  simpl.
  destruct (Nat.leb (innerWidth env) 768);
    destruct (ai env (Gemini.imageRequest (config c))) as [response|e];
    [destruct (Gemini.parseResponse response) | |
     destruct (Gemini.parseResponse response) | ];
    simpl; destruct (truthyOpt (errorMessage c)); reflexivity.
Qed.

Lemma handleGenerate_state :
  nothingToGenerate c = false ->
  stateAfter (handleGenerate env c) s
  = stateAfter (finally_ c)
      (stateAfter (settle env c (generated env c))
         (stateAfter (announce env) s)).
Proof.
  intros G. unfold stateAfter at 1. now rewrite (handleGenerate_stages G).
Qed.

Lemma handleGenerate_guarded :
  nothingToGenerate c = true ->
  run (handleGenerate env c s) = ((tt, s), []).
Proof.
  intros G. unfold handleGenerate, handleGenerateBody. now rewrite G.
Qed.

Lemma announce_state :
  stateAfter (announce env) s
  = mkState (prompt s) (negativePrompt s) (aspectRatio s)
            (selectedStyleId s) (brandTone s) (referenceImage s)
            GENERATING (isTextLoading s) None (justRefined s)
            (history s) (currentImage s)
            (if Nat.leb (innerWidth env) 768 then false else isSidebarOpen s).
Proof.
  unfold stateAfter, announce, run, seq, App.bind, GenAI.bind. simpl.
  now destruct (Nat.leb (innerWidth env) 768).
Qed.

Lemma settle_returned (image : string) (s1 : State) :
  stateAfter (settle env c (Returned image)) s1
  = mkState (prompt s1) (negativePrompt s1) (aspectRatio s1)
            (selectedStyleId s1) (brandTone s1) (referenceImage s1)
            SUCCESS (isTextLoading s1) (errorMessage s1) (justRefined s1)
            (newImage env c image :: history s1)
            (Some (newImage env c image)) (isSidebarOpen s1).
Proof. reflexivity. Qed.

Lemma settle_thrown (e : JSError) (s1 : State) :
  stateAfter (settle env c (Thrown e)) s1
  = mkState (prompt s1) (negativePrompt s1) (aspectRatio s1)
            (selectedStyleId s1) (brandTone s1) (referenceImage s1)
            ERROR (isTextLoading s1) (Some generationFailed) (justRefined s1)
            (history s1) (currentImage s1) (isSidebarOpen s1).
Proof. reflexivity. Qed.

Lemma finally_state (s2 : State) :
  stateAfter (finally_ c) s2
  = mkState (prompt s2) (negativePrompt s2) (aspectRatio s2)
            (selectedStyleId s2) (brandTone s2) (referenceImage s2)
            (if truthyOpt (errorMessage c) then ERROR else IDLE)
            (isTextLoading s2) (errorMessage s2) (justRefined s2)
            (history s2) (currentImage s2) (isSidebarOpen s2).
Proof.
  unfold stateAfter, finally_. now destruct (truthyOpt (errorMessage c)).
Qed.

(** The cells of a request that passed the guard, block after block. *)
Lemma handleGenerateBody_moments :
  nothingToGenerate c = false ->
  moments (handleGenerateBody env c) s
  = [stateAfter (announce env) s;
     stateAfter (settle env c (generated env c))
       (stateAfter (announce env) s);
     stateAfter (finally_ c)
       (stateAfter (settle env c (generated env c))
          (stateAfter (announce env) s))].
Proof.
  intros G. unfold generated. rewrite generateImage_value.
  unfold moments, handleGenerateBody. rewrite G. cbn [cellsFrom].
  unfold stateAfter, run, seq, App.bind, await, GenAI.bind, announce.
  unfold Gemini.generateImage, GenAI.bind, generateContent, seq, App.bind,
    GenAI.bind, finally_.
  simpl.
  destruct (Nat.leb (innerWidth env) 768);
    destruct (ai env (Gemini.imageRequest (config c))) as [response|e];
    [destruct (Gemini.parseResponse response) | |
     destruct (Gemini.parseResponse response) | ];
    simpl; destruct (truthyOpt (errorMessage c)); reflexivity.
Qed.

Lemma handleGenerateBody_waiting :
  nothingToGenerate c = false ->
  waiting (handleGenerateBody env c) s = [stateAfter (announce env) s].
Proof.
  intros G. unfold waiting, handleGenerateBody. rewrite G. cbn [waitingFrom].
  unfold stateAfter, run, seq, App.bind, await, GenAI.bind, announce.
  unfold Gemini.generateImage, GenAI.bind, generateContent, seq, App.bind,
    GenAI.bind, finally_.
  simpl.
  destruct (Nat.leb (innerWidth env) 768);
    destruct (ai env (Gemini.imageRequest (config c))) as [response|e];
    [destruct (Gemini.parseResponse response) | |
     destruct (Gemini.parseResponse response) | ];
    destruct (truthyOpt (errorMessage c)); reflexivity.
Qed.

Lemma trim_not_empty (p : string) : trim p <> EmptyString -> p <> EmptyString.
Proof. intros H ->. now apply H. Qed.

End OrchestratorFacts.

(** C1, as the claim states it, fails: with a prompt, no error shown
    and a service that returns an image, a click leaves the state at
    IDLE, the new image being in the history; and with a service that
    throws, it leaves the state at IDLE too, the message being set. *)
Lemma generate_final_state_counterexample :
  let image :=
    GenAI.mkResponse
      (Some [GenAI.mkCandidate
               (Some (GenAI.mkContent
                        (Some [GenAI.mkPart
                                 (Some (GenAI.mkBlob (Some "iVBORw0KGgo=")
                                                     (Some "image/png")))
                                 None])))])
      None in
  let online :=
    App.mkEnv (fun _ => GenAI.Returned image) 1280 "0b5e2c1a" 1000 in
  let offline :=
    App.mkEnv (fun _ => GenAI.Thrown (GenAI.Error "fetch failed"))
              1280 "0b5e2c1a" 1000 in
  let s := App.stateAfter (App.setPrompt "a red bicycle") (App.initial online) in
  (App.appState (fst (App.click online s)) = Types.IDLE
   /\ length (App.history (fst (App.click online s))) = 1
   /\ App.appState (fst (App.click online s)) <> Types.SUCCESS)
  /\ (App.appState (fst (App.click offline s)) = Types.IDLE
      /\ App.errorMessage (fst (App.click offline s))
         = Some App.generationFailed
      /\ App.appState (fst (App.click offline s)) <> Types.ERROR).
Proof.
  repeat split; try discriminate; reflexivity.
Qed.

(** C1 (amended): a generate request that passes the guard (a prompt
    that is not blank, or a reference image) moves the state, whatever
    it was, to GENERATING: this is the state of the component while
    the image call is awaited; when the call returns an image the
    handler sets the state to SUCCESS, and on any failure it sets it
    to ERROR and sets the user-facing message; the [finally] block
    then resets the state, so that on the success path, no error
    message having been shown when the request was made, the states
    the handler goes through are GENERATING, SUCCESS, IDLE and the
    final state is IDLE; the message set on the failure path stays. *)
Theorem generate_state_machine (env : App.Env) (c s : App.State) :
  App.nothingToGenerate c = false ->
  let states :=
    map App.appState (App.moments (App.handleGenerateBody env c) s) in
  let messages :=
    map App.errorMessage (App.moments (App.handleGenerateBody env c) s) in
  map App.appState (App.waiting (App.handleGenerateBody env c) s)
  = [Types.GENERATING]
  /\ (forall image,
        App.generated env c = GenAI.Returned image ->
        firstn 2 states = [Types.GENERATING; Types.SUCCESS]
        /\ (App.truthyOpt (App.errorMessage c) = false ->
            states = [Types.GENERATING; Types.SUCCESS; Types.IDLE]
            /\ App.appState (App.stateAfter (App.handleGenerate env c) s)
               = Types.IDLE))
  /\ (forall e,
        App.generated env c = GenAI.Thrown e ->
        firstn 2 states = [Types.GENERATING; Types.ERROR]
        /\ skipn 1 messages
           = [Some "Image generation failed. Please check your prompt or try again.";
              Some "Image generation failed. Please check your prompt or try again."]
        /\ App.errorMessage (App.stateAfter (App.handleGenerate env c) s)
           = Some "Image generation failed. Please check your prompt or try again.").
Proof.
  intros G states messages. unfold states, messages.
  rewrite (handleGenerateBody_moments env c s G),
    (handleGenerateBody_waiting env c s G).
  split; [|split].
  - cbn [map]. now rewrite announce_state.
  - intros image R. rewrite R. cbn [map firstn].
    rewrite settle_returned, announce_state. cbn [App.appState].
    split; [reflexivity|]. intros E.
    rewrite finally_state, E. cbn [App.appState]. split; [reflexivity|].
    rewrite (handleGenerate_state env c s G), R, finally_state, E.
    reflexivity.
  - intros e R. rewrite R. cbn [map firstn skipn].
    rewrite finally_state, settle_thrown, announce_state.
    cbn [App.appState App.errorMessage].
    repeat split.
    rewrite (handleGenerate_state env c s G), R, finally_state, settle_thrown.
    reflexivity.
Qed.

Lemma generate_state_machine_witness :
  let image :=
    GenAI.mkResponse
      (Some [GenAI.mkCandidate
               (Some (GenAI.mkContent
                        (Some [GenAI.mkPart
                                 (Some (GenAI.mkBlob (Some "iVBORw0KGgo=")
                                                     (Some "image/png")))
                                 None])))])
      None in
  let env :=
    App.mkEnv (fun _ => GenAI.Returned image) 1280 "0b5e2c1a" 1000 in
  let s := App.stateAfter (App.setPrompt "a red bicycle") (App.initial env) in
  map App.appState (App.waiting (App.handleGenerateBody env s) s)
  = [Types.GENERATING]
  /\ map App.appState (App.moments (App.handleGenerateBody env s) s)
     = [Types.GENERATING; Types.SUCCESS; Types.IDLE]
  /\ App.appState (App.stateAfter (App.handleGenerate env s) s) = Types.IDLE.
Proof.
  intros image env s.
  destruct (generate_state_machine env s s eq_refl) as [A [F _]].
  split; [exact A|].
  apply (proj2 (F "data:image/png;base64,iVBORw0KGgo=" eq_refl)).
  reflexivity.
Defined.

(** C2: for every generate request that passes the guard, a successful
    generation puts exactly one new GeneratedImage in front of the
    history and makes it the current image; a failed one leaves the
    history and the current image as they were and sets the error
    message. *)
Theorem generate_history (env : App.Env) (c s : App.State) :
  App.nothingToGenerate c = false ->
  let s' := App.stateAfter (App.handleGenerate env c) s in
  match App.generated env c with
  | GenAI.Returned image =>
      App.history s' = App.newImage env c image :: App.history s
      /\ App.currentImage s' = Some (App.newImage env c image)
      /\ Types.img_data (App.newImage env c image) = image
  | GenAI.Thrown _ =>
      App.history s' = App.history s
      /\ App.currentImage s' = App.currentImage s
      /\ App.errorMessage s'
         = Some "Image generation failed. Please check your prompt or try again."
  end.
Proof.
  intros G s'. unfold s'.
  rewrite (handleGenerate_state env c s G), finally_state.
  destruct (App.generated env c) as [image|e].
  - rewrite settle_returned, announce_state. repeat split.
  - rewrite settle_thrown, announce_state. repeat split.
Qed.

Lemma generate_history_witness :
  let env :=
    App.mkEnv (fun _ => GenAI.Thrown (GenAI.Error "fetch failed"))
              1280 "0b5e2c1a" 1000 in
  let s := App.stateAfter (App.setPrompt "a red bicycle") (App.initial env) in
  App.history (App.stateAfter (App.handleGenerate env s) s) = []
  /\ App.currentImage (App.stateAfter (App.handleGenerate env s) s) = None
  /\ App.errorMessage (App.stateAfter (App.handleGenerate env s) s)
     = Some "Image generation failed. Please check your prompt or try again.".
Proof.
  intros env s. exact (generate_history env s s eq_refl).
Defined.

(** C9: with an empty prompt and no reference image the handler
    returns at once: the cells are what they were and no request is
    sent; and whenever a request is sent, the prompt is not empty or a
    reference image is present. *)
Theorem generate_guard (env : App.Env) (c s : App.State) :
  (App.prompt c = EmptyString ->
   App.referenceImage c = None ->
   GenAI.run (App.handleGenerate env c s) = ((tt, s), []))
  /\ (App.requestsOf (App.handleGenerate env c) s <> [] ->
      App.prompt c <> EmptyString
      \/ exists r, App.referenceImage c = Some r /\ r <> EmptyString).
Proof.
  split.
  - intros P R. apply handleGenerate_guarded.
    unfold App.nothingToGenerate. now rewrite P, R.
  - intros N. destruct (App.nothingToGenerate c) eqn:G.
    + unfold App.requestsOf in N.
      rewrite (handleGenerate_guarded env c s G) in N. now destruct N.
    + unfold App.nothingToGenerate in G.
      apply andb_false_iff in G. destruct G as [G | G];
        apply negb_false_iff in G.
      * left. apply trim_not_empty. now apply truthy_true.
      * right. destruct (App.referenceImage c) as [r|]; [|discriminate].
        exists r. split; [reflexivity | now apply truthy_true].
Qed.

Lemma generate_guard_witness :
  let env :=
    App.mkEnv (fun _ => GenAI.Thrown (GenAI.Error "fetch failed"))
              1280 "0b5e2c1a" 1000 in
  GenAI.run (App.handleGenerate env (App.initial env) (App.initial env))
  = ((tt, App.initial env), []).
Proof.
  intros env.
  apply (proj1 (generate_guard env (App.initial env) (App.initial env)));
    reflexivity.
Defined.

(* ================================================================= *)
(** * More on the header pattern *)

Section HeaderFacts.
Import JS Regex.

Lemma exec_lits_inv (p : string) (q : pattern) (s r : string) :
  exec (lits p ++ q)%list s = Some r ->
  exists t, s = p ++ t /\ exec q t = Some r.
Proof.
  revert s. induction p as [|c p IH]; intros s H.
  - exists s. split; [reflexivity | exact H].
  - cbn [lits app exec] in H. destruct s as [|d s]; [discriminate|].
    destruct (Ascii.eqb c d) eqn:E; [|discriminate].
    apply Ascii.eqb_eq in E. subst d.
    destruct (IH s H) as [t [-> Ht]]. now exists t.
Qed.

Lemma star_inv (k : string -> option string) (t r : string) :
  star isWord k t = Some r ->
  exists w t', t = w ++ t' /\ every isWord w = true /\ k t' = Some r.
Proof.
  induction t as [|c t IH]; cbn [star]; intros H.
  - exists EmptyString, EmptyString. auto.
  - destruct (isWord c) eqn:W.
    + destruct (star isWord k t) as [r'|] eqn:S.
      * injection H as ->.
        destruct (IH eq_refl) as [w [t' [-> [Hw Hk]]]].
        exists (String c w), t'. cbn [append every]. rewrite W, Hw. auto.
      * exists EmptyString, (String c t). auto.
    + exists EmptyString, (String c t). auto.
Qed.

(** What the pattern matches: the fixed start, a non-empty run of word
    characters, the fixed end; what is left is the text after it. *)
Lemma dataUrlHeader_match (s r : string) :
  exec dataUrlHeader s = Some r <->
  exists sub, sub <> EmptyString /\ every isWord sub = true
              /\ s = "data:image/" ++ sub ++ ";base64," ++ r.
Proof.
  unfold dataUrlHeader. split.
  - intros H. apply exec_lits_inv in H. destruct H as [t [-> H]].
    cbn [app exec] in H. destruct t as [|d t]; [discriminate|].
    destruct (isWord d) eqn:W; [|discriminate].
    apply star_inv in H. destruct H as [w [t' [-> [Hw H]]]].
    rewrite <- (app_nil_r (lits ";base64,")) in H.
    apply exec_lits_inv in H. destruct H as [u [-> H]].
    cbn [exec] in H. injection H as ->.
    exists (String d w). cbn [every append]. rewrite W, Hw.
    repeat split. discriminate.
  - intros [sub [Hne [Hw ->]]]. rewrite exec_lits.
    destruct sub as [|c sub]; [now destruct Hne|].
    cbn [every] in Hw. apply andb_true_iff in Hw. destruct Hw as [Hc Hw].
    cbn [app exec append]. rewrite Hc.
    apply (star_run _ sub (";base64," ++ r) r Hw).
    + intros d t E. injection E as <- _. reflexivity.
    + apply exec_lits_only.
Qed.

End HeaderFacts.

(** X1: [base64Data] changes a reference image exactly when it starts
    with [data:image/], a non-empty run of letters, digits and
    underscores and [;base64,]: it then returns what follows this
    header; every other string is returned as it is. *)
Theorem base64Data_cases (ref : string) :
  (exists sub payload,
      sub <> EmptyString /\ JS.every Regex.isWord sub = true
      /\ ref = "data:image/" ++ sub ++ ";base64," ++ payload
      /\ Gemini.base64Data ref = payload)
  \/ ((forall sub payload,
         sub <> EmptyString -> JS.every Regex.isWord sub = true ->
         ref <> "data:image/" ++ sub ++ ";base64," ++ payload)
      /\ Gemini.base64Data ref = ref).
Proof.
  unfold Gemini.base64Data, Regex.replace.
  destruct (Regex.exec Regex.dataUrlHeader ref) as [r|] eqn:E.
  - left. apply dataUrlHeader_match in E. destruct E as [sub [Hne [Hw ->]]].
    exists sub, r. auto.
  - right. split; [|reflexivity].
    intros sub payload Hne Hw ->.
    assert (M : Regex.exec Regex.dataUrlHeader
                  ("data:image/" ++ sub ++ ";base64," ++ payload)
                = Some payload).
    { apply dataUrlHeader_match. now exists sub. }
    rewrite M in E. discriminate.
Qed.

(* ================================================================= *)
(** * More on the response of the image call *)

Section ScanFacts.
Import JS GenAI ResponseSpec.

Lemma scanParts_inv (ps : list Part) (image : string) :
  Gemini.scanParts ps = Some image ->
  exists before part after d,
    ps = (before ++ part :: after)%list
    /\ Forall (fun p => payloadOf p = None) before
    /\ payloadOf part = Some d
    /\ image = "data:image/png;base64," ++ d.
Proof.
  induction ps as [|p ps IH]; [discriminate|].
  rewrite scanParts_cons. destruct (payloadOf p) as [d|] eqn:P.
  - intros H. injection H as <-.
    exists [], p, ps, d. auto.
  - intros H. destruct (IH H) as [before [part [after [d [-> [Hb [Hp ->]]]]]]].
    exists (p :: before), part, after, d. auto.
Qed.

Lemma payloadOf_not_empty (part : Part) (d : string) :
  payloadOf part = Some d -> d <> EmptyString.
Proof.
  unfold payloadOf. destruct (inlineData part) as [blob|]; [|discriminate].
  destruct (data blob) as [d'|]; [|discriminate].
  destruct d'; simpl; [discriminate|].
  intros H. injection H as <-. discriminate.
Qed.

Lemma parseResponse_returned (response : GenerateContentResponse)
      (image : string) :
  Gemini.parseResponse response = Returned image ->
  exists candidate others ps,
    candidates response = Some (candidate :: others)
    /\ content candidate = Some (mkContent (Some ps))
    /\ Gemini.scanParts ps = Some image.
Proof.
  unfold Gemini.parseResponse.
  destruct (candidates response) as [[|candidate others]|];
    cbn [nth_error]; try discriminate.
  destruct (content candidate) as [[[ps|]]|] eqn:C; cbn [parts];
    try discriminate.
  destruct (Gemini.scanParts ps) as [img|] eqn:S; [|discriminate].
  intros H. injection H as <-.
  exists candidate, others, ps. auto.
Qed.

Lemma generateImage_returned_inv (ai : Client)
      (config : Types.GenerationConfig) (image : string) :
  fst (run (Gemini.generateImage ai config)) = Returned image ->
  exists response candidate others before part after d,
    ai (Gemini.imageRequest config) = Returned response
    /\ candidates response = Some (candidate :: others)
    /\ content candidate
       = Some (mkContent (Some (before ++ part :: after)%list))
    /\ Forall (fun p => payloadOf p = None) before
    /\ payloadOf part = Some d
    /\ d <> EmptyString
    /\ image = "data:image/png;base64," ++ d.
Proof.
  rewrite generateImage_value. cbn [fst].
  destruct (ai (Gemini.imageRequest config)) as [response|e]; [|discriminate].
  intros H. apply parseResponse_returned in H.
  destruct H as [candidate [others [ps [Hc [Hct S]]]]].
  apply scanParts_inv in S.
  destruct S as [before [part [after [d [-> [Hb [Hp ->]]]]]]].
  exists response, candidate, others, before, part, after, d.
  repeat split; auto. now apply (payloadOf_not_empty part).
Qed.

End ScanFacts.

(** X2: an image that [generateImage] returns is the prefix
    [data:image/png;base64,] followed by the payload, which is not
    empty, of the first part of the first candidate that has one: the
    parts before it have none. *)
Theorem generateImage_returned (ai : GenAI.Client)
        (config : Types.GenerationConfig) (image : string) :
  fst (GenAI.run (Gemini.generateImage ai config)) = GenAI.Returned image ->
  exists response candidate others before part after d,
    ai (Gemini.imageRequest config) = GenAI.Returned response
    /\ GenAI.candidates response = Some (candidate :: others)
    /\ GenAI.content candidate
       = Some (GenAI.mkContent (Some (before ++ part :: after)%list))
    /\ Forall (fun p => ResponseSpec.payloadOf p = None) before
    /\ ResponseSpec.payloadOf part = Some d
    /\ d <> EmptyString
    /\ image = "data:image/png;base64," ++ d.
Proof.
  apply generateImage_returned_inv.
Qed.

Lemma generateImage_returned_witness :
  let answer :=
    GenAI.mkResponse
      (Some [GenAI.mkCandidate
               (Some (GenAI.mkContent
                        (Some [GenAI.mkPart None (Some "Here you are");
                               GenAI.mkPart
                                 (Some (GenAI.mkBlob (Some "iVBORw0KGgo=")
                                                     (Some "image/png")))
                                 None])))])
      None in
  exists response candidate others before part after d,
    response = answer
    /\ GenAI.candidates response = Some (candidate :: others)
    /\ GenAI.content candidate
       = Some (GenAI.mkContent (Some (before ++ part :: after)%list))
    /\ Forall (fun p => ResponseSpec.payloadOf p = None) before
    /\ ResponseSpec.payloadOf part = Some d
    /\ d <> EmptyString
    /\ "data:image/png;base64,iVBORw0KGgo=" = "data:image/png;base64," ++ d.
Proof.
  intros answer.
  destruct (generateImage_returned
              (fun _ => GenAI.Returned answer)
              (Types.mkGenerationConfig "a logo" None "1:1" "none" None)
              "data:image/png;base64,iVBORw0KGgo=" eq_refl)
    as [response [candidate [others [before [part [after [d [H H']]]]]]]].
  exists response, candidate, others, before, part, after, d.
  split; [now injection H | exact H'].
Defined.

(** X3: when the parts of the first candidate carry no payload (text
    parts, inline data that is missing or empty), the call fails with
    the error "No image data found in response.", whatever the other
    candidates hold: they are never read. *)
Theorem generateImage_first_candidate_only (ai : GenAI.Client)
        (config : Types.GenerationConfig)
        (ps : list GenAI.Part) (others : list GenAI.Candidate)
        (t : option string) :
  ai (Gemini.imageRequest config)
  = GenAI.Returned
      (GenAI.mkResponse
         (Some (GenAI.mkCandidate (Some (GenAI.mkContent (Some ps))) :: others))
         t) ->
  Forall (fun p => ResponseSpec.payloadOf p = None) ps ->
  fst (GenAI.run (Gemini.generateImage ai config))
  = GenAI.Thrown (GenAI.Error "No image data found in response.").
Proof.
  intros H Hps. rewrite generateImage_value, H. cbn [fst].
  rewrite (parseResponse_first_candidate
             (GenAI.mkCandidate (Some (GenAI.mkContent (Some ps))))
             others ps t eq_refl).
  now rewrite (scanParts_none ps Hps).
Qed.

Lemma generateImage_first_candidate_only_witness :
  let image :=
    GenAI.mkPart (Some (GenAI.mkBlob (Some "iVBORw0KGgo=") (Some "image/png")))
                 None in
  let answer :=
    GenAI.mkResponse
      (Some [GenAI.mkCandidate
               (Some (GenAI.mkContent
                        (Some [GenAI.mkPart None (Some "I cannot draw this");
                               GenAI.mkPart
                                 (Some (GenAI.mkBlob (Some EmptyString)
                                                     (Some "image/png")))
                                 None])));
             GenAI.mkCandidate (Some (GenAI.mkContent (Some [image])))])
      None in
  fst (GenAI.run
         (Gemini.generateImage
            (fun _ => GenAI.Returned answer)
            (Types.mkGenerationConfig "a logo" None "1:1" "none" None)))
  = GenAI.Thrown (GenAI.Error "No image data found in response.").
Proof.
  intros image answer.
  apply (generateImage_first_candidate_only
           (fun _ => GenAI.Returned answer)
           (Types.mkGenerationConfig "a logo" None "1:1" "none" None)
           [GenAI.mkPart None (Some "I cannot draw this");
            GenAI.mkPart (Some (GenAI.mkBlob (Some EmptyString)
                                             (Some "image/png"))) None]
           [GenAI.mkCandidate (Some (GenAI.mkContent (Some [image])))]
           None).
  - reflexivity.
  - repeat constructor.
Defined.

(** X4: an image that [generateImage] returned can be given back as
    the reference image of a later request: the header it was given is
    stripped and the inline part carries the payload that was
    received. *)
Theorem generated_image_as_reference (ai : GenAI.Client)
        (config next : Types.GenerationConfig) (image : string) :
  fst (GenAI.run (Gemini.generateImage ai config)) = GenAI.Returned image ->
  Types.referenceImage next = Some image ->
  exists d,
    image = "data:image/png;base64," ++ d
    /\ Gemini.requestParts next
       = [GenAI.mkPart (Some (GenAI.mkBlob (Some d) (Some "image/png"))) None;
          GenAI.mkPart None (Some (Gemini.fullPrompt next))].
Proof.
  intros H R. apply generateImage_returned_inv in H.
  destruct H as [_ [_ [_ [_ [_ [_ [d [_ [_ [_ [_ [_ [_ ->]]]]]]]]]]]]].
  exists d. split; [reflexivity|].
  rewrite (requestParts_reference next _ R); [|discriminate].
  assert (E : Gemini.base64Data ("data:image/png;base64," ++ d) = d).
  { apply (header_stripped "png" d); [discriminate | reflexivity]. }
  now rewrite E.
Qed.

Lemma generated_image_as_reference_witness :
  let answer :=
    GenAI.mkResponse
      (Some [GenAI.mkCandidate
               (Some (GenAI.mkContent
                        (Some [GenAI.mkPart
                                 (Some (GenAI.mkBlob (Some "iVBORw0KGgo=")
                                                     (Some "image/png")))
                                 None])))])
      None in
  let next :=
    Types.mkGenerationConfig "make it blue" None "1:1" "none"
      (Some "data:image/png;base64,iVBORw0KGgo=") in
  exists d,
    "data:image/png;base64,iVBORw0KGgo=" = "data:image/png;base64," ++ d
    /\ Gemini.requestParts next
       = [GenAI.mkPart (Some (GenAI.mkBlob (Some d) (Some "image/png"))) None;
          GenAI.mkPart None (Some (Gemini.fullPrompt next))].
Proof.
  intros answer next.
  apply (generated_image_as_reference
           (fun _ => GenAI.Returned answer)
           (Types.mkGenerationConfig "a logo" None "1:1" "none" None)
           next "data:image/png;base64,iVBORw0KGgo=");
    reflexivity.
Defined.

(* ================================================================= *)
(** * More on the two text clients *)

Section TrimFacts.
Import JS.

Lemma trimEnd_head (c : ascii) (s : string) :
  isWhiteSpace c = false -> exists r, trimEnd (String c s) = String c r.
Proof.
  intros W. cbn [trimEnd]. destruct (trimEnd s) as [|d r].
  - rewrite W. now exists EmptyString.
  - now exists (String d r).
Qed.

Lemma trimEnd_idempotent (s : string) : trimEnd (trimEnd s) = trimEnd s.
Proof.
  induction s as [|c s IH]; [reflexivity|].
  cbn [trimEnd]. destruct (trimEnd s) as [|d r] eqn:E.
  - destruct (isWhiteSpace c) eqn:W; [reflexivity|].
    cbn [trimEnd]. now rewrite W.
  - change (trimEnd (String c (String d r))) with
      (match trimEnd (String d r) with
       | EmptyString => if isWhiteSpace c then EmptyString
                        else String c EmptyString
       | r' => String c r'
       end).
    now rewrite IH.
Qed.

Lemma trimStart_head (s : string) :
  trimStart s = EmptyString
  \/ exists c r, trimStart s = String c r /\ isWhiteSpace c = false.
Proof.
  induction s as [|c s IH]; [now left|].
  cbn [trimStart]. destruct (isWhiteSpace c) eqn:W; [exact IH|].
  right. now exists c, s.
Qed.

(** Trimming what is trimmed changes nothing. *)
Lemma trim_idempotent (s : string) : trim (trim s) = trim s.
Proof.
  unfold trim. destruct (trimStart_head s) as [-> | [c [r [-> W]]]];
    [reflexivity|].
  destruct (trimEnd_head c r W) as [r' E].
  rewrite E. cbn [trimStart]. rewrite W, <- E.
  apply trimEnd_idempotent.
Qed.

End TrimFacts.

(** X5: enhancement keeps a usable prompt usable: when the raw prompt
    is not blank, what [enhancePrompt] returns is not blank either,
    whatever the service does. *)
Theorem enhancePrompt_not_blank (ai : GenAI.Client)
        (rawPrompt tone ratio : string) :
  JS.trim rawPrompt <> EmptyString ->
  JS.trim (fst (GenAI.run (Gemini.enhancePrompt ai rawPrompt tone ratio)))
  <> EmptyString.
Proof.
  intros H. rewrite enhancePrompt_value.
  destruct (ai _) as [response|e]; [|exact H].
  rewrite orElse_trim.
  destruct (GenAI.response_text response) as [t|]; [|exact H].
  destruct (String.eqb (JS.trim t) EmptyString) eqn:E; [exact H|].
  rewrite trim_idempotent. now apply String.eqb_neq.
Qed.

Lemma enhancePrompt_not_blank_witness :
  JS.trim (fst (GenAI.run
                  (Gemini.enhancePrompt
                     (fun _ => GenAI.Returned (GenAI.mkResponse None (Some "  ")))
                     " a cat " "luxury" "16:9")))
  <> EmptyString.
Proof.
  apply enhancePrompt_not_blank. discriminate.
Defined.

(** X6: [suggestCreativePrompt] never returns a blank prompt, whatever
    the service does. *)
Theorem suggestCreativePrompt_not_blank (ai : GenAI.Client)
        (tone ratio : string) :
  JS.trim (fst (GenAI.run (Gemini.suggestCreativePrompt ai tone ratio)))
  <> EmptyString.
Proof.
  rewrite suggestCreativePrompt_value.
  destruct (ai _) as [response|e]; [|discriminate].
  rewrite orElse_trim.
  destruct (GenAI.response_text response) as [t|]; [|discriminate].
  destruct (String.eqb (JS.trim t) EmptyString) eqn:E; [discriminate|].
  rewrite trim_idempotent. now apply String.eqb_neq.
Qed.

(* ================================================================= *)
(** * The tone and ratio tables *)

(** X7: the three tone tables (the keywords of [handleGenerate], the
    instruction of [enhancePrompt], the context of
    [suggestCreativePrompt]) each give the six tones six different
    texts: every named tone has an entry of its own in each, and only
    the default tone gets the text of the [default] branch. *)
Theorem tone_tables_correspond (t t' : Types.BrandTone) :
  (Composer.toneModifiers t = Composer.toneModifiers t' -> t = t')
  /\ (Gemini.toneInstruction (Types.toneValue t)
      = Gemini.toneInstruction (Types.toneValue t') -> t = t')
  /\ (Gemini.context (Types.toneValue t)
      = Gemini.context (Types.toneValue t') -> t = t')
  /\ (Gemini.toneInstruction (Types.toneValue t)
      = Gemini.toneInstruction "any other value" -> t = Types.default)
  /\ (Gemini.context (Types.toneValue t)
      = Gemini.context "any other value" -> t = Types.default).
Proof.
  repeat split; destruct t, t'; try reflexivity; intros H;
    apply String.eqb_eq in H; vm_compute in H; discriminate H.
Qed.

(** X8: in the ratio table of [enhancePrompt], the mandatory keywords
    selected for a listed format never contain the value of another
    listed format; for the four formats other than the square they
    contain the value of their own format. *)
Theorem ratio_keywords_agree (r r' : Types.AspectRatio) :
  (JS.includes (Types.ratioValue r')
               (Gemini.ratioKeywords (Types.ratioValue r)) = true -> r' = r)
  /\ (r <> Types.R1_1 ->
      JS.includes (Types.ratioValue r)
                  (Gemini.ratioKeywords (Types.ratioValue r)) = true).
Proof.
  split.
  - destruct r, r'; try reflexivity; intros H; vm_compute in H; discriminate H.
  - destruct r; intros H; try reflexivity. now destruct H.
Qed.

Lemma ratio_keywords_agree_witness :
  JS.includes "16:9" (Gemini.ratioKeywords "16:9") = true.
Proof.
  apply (proj2 (ratio_keywords_agree Types.R16_9 Types.R16_9)). discriminate.
Defined.

(* ================================================================= *)
(** * More on the composed prompt *)

Section EndFacts.
Import JS Types.

Lemma endsWith_refl (s : string) : endsWith s s = true.
Proof. apply endsWith_spec. now exists EmptyString. Qed.

Lemma endsWith_append (p a s : string) :
  endsWith p s = true -> endsWith p (a ++ s) = true.
Proof.
  intros H. apply endsWith_spec in H. destruct H as [t ->].
  apply endsWith_spec. exists (a ++ t). now rewrite append_assoc.
Qed.

Lemma startsWith_append (p b : string) : startsWith p (p ++ b) = true.
Proof. apply startsWith_spec. now exists b. Qed.

Lemma startsWith_refl (p : string) : startsWith p p = true.
Proof. apply startsWith_spec. exists EmptyString. now rewrite append_empty_r. Qed.

(** The last of the joined fragments ends the result. *)
Lemma join_last (sep : string) (l : list string) (p : string) :
  endsWith p (join sep (l ++ [p])%list) = true.
Proof.
  induction l as [|x l IH]; [apply endsWith_refl|].
  cbn [app]. destruct (l ++ [p])%list as [|y l'] eqn:E.
  - now destruct l.
  - rewrite join_cons. now do 2 apply endsWith_append.
Qed.

(** The first of the joined fragments starts it. *)
Lemma join_first (sep x : string) (l : list string) :
  startsWith x (join sep (x :: l)) = true.
Proof.
  destruct l as [|y l]; [apply startsWith_refl|].
  rewrite join_cons. apply startsWith_append.
Qed.

Lemma filter_last {A} (f : A -> bool) (l : list A) (x : A) :
  f x = true -> filter f (l ++ [x])%list = (filter f l ++ [x])%list.
Proof.
  intros H. rewrite filter_app. cbn [filter]. now rewrite H.
Qed.

Lemma finalPrompt_style_head (catalog : list StylePreset) (styleId : string)
      (tone : BrandTone) (prompt : string) :
  Composer.nonBlank (Composer.styleMod catalog styleId) = true ->
  startsWith (Composer.styleMod catalog styleId)
             (Composer.finalPrompt catalog styleId tone prompt) = true.
Proof.
  intros H. unfold Composer.finalPrompt, Composer.parts.
  cbn [filter]. rewrite H. apply join_first.
Qed.

Lemma finalPrompt_tone_head (catalog : list StylePreset) (styleId : string)
      (tone : BrandTone) (prompt : string) :
  Composer.styleMod catalog styleId = EmptyString ->
  startsWith (Composer.toneModifiers tone)
             (Composer.finalPrompt catalog styleId tone prompt) = true.
Proof.
  intros H. unfold Composer.finalPrompt, Composer.parts.
  rewrite H. cbn [filter].
  change (Composer.nonBlank EmptyString) with false. cbv iota.
  unfold Composer.toneMod.
  destruct (Composer.nonBlank (Composer.toneModifiers tone)) eqn:B.
  - apply join_first.
  - destruct tone; try discriminate B. reflexivity.
Qed.

Lemma finalPrompt_plain (catalog : list StylePreset) (styleId prompt : string) :
  Composer.styleMod catalog styleId = EmptyString ->
  Composer.finalPrompt catalog styleId default prompt
  = if Composer.nonBlank prompt then prompt else EmptyString.
Proof.
  intros H. unfold Composer.finalPrompt, Composer.parts.
  rewrite H. cbn [filter].
  change (Composer.nonBlank EmptyString) with false.
  change (Composer.nonBlank (Composer.toneMod default)) with false.
  now destruct (Composer.nonBlank prompt).
Qed.

End EndFacts.

(** X9: whatever the catalog, the style and the tone, a prompt that is
    not blank ends the composed prompt, unchanged (not trimmed); and
    when the prompt is blank, the style is not listed and the tone is
    the default, the composed prompt is empty. *)
Theorem finalPrompt_subject_last
  (catalog : list Types.StylePreset) (styleId : string)
  (tone : Types.BrandTone) (prompt : string) :
  (Composer.nonBlank prompt = true ->
   JS.endsWith prompt (Composer.finalPrompt catalog styleId tone prompt) = true)
  /\ (Composer.nonBlank prompt = false ->
      (forall s, In s catalog -> Types.id s <> styleId) ->
      Composer.finalPrompt catalog styleId Types.default prompt = EmptyString).
Proof.
  split.
  - intros H. unfold Composer.finalPrompt, Composer.parts.
    change [Composer.styleMod catalog styleId; Composer.toneMod tone; prompt]
      with ([Composer.styleMod catalog styleId; Composer.toneMod tone]
              ++ [prompt])%list.
    rewrite (filter_last _ _ _ H). apply join_last.
  - intros H U. unfold Composer.finalPrompt, Composer.parts.
    rewrite (styleMod_unlisted catalog styleId U). cbn [filter].
    change (Composer.nonBlank EmptyString) with false.
    change (Composer.nonBlank (Composer.toneMod Types.default)) with false.
    now rewrite H.
Qed.

Lemma finalPrompt_subject_last_witness :
  JS.endsWith " a red bicycle "
    (Composer.finalPrompt Styles.STYLES "anime" Types.playful " a red bicycle ")
  = true.
Proof.
  apply (proj1 (finalPrompt_subject_last Styles.STYLES "anime" Types.playful
                  " a red bicycle ")).
  reflexivity.
Defined.

(** X10: for each style of the catalog other than ["none"], whatever
    the tone and the prompt, the composed prompt starts with the
    modifier of this style; for ["none"], whose catalog entry has a
    modifier too, it starts with the tone keywords, and with the
    default tone it is the prompt alone, or empty when the prompt is
    blank. *)
Theorem finalPrompt_style_first (style : Types.StylePreset)
        (tone : Types.BrandTone) (prompt : string) :
  In style Styles.STYLES ->
  (Types.id style <> "none" ->
   JS.startsWith (Types.promptModifier style)
     (Composer.finalPrompt Styles.STYLES (Types.id style) tone prompt) = true)
  /\ (Types.id style = "none" ->
      Types.promptModifier style <> EmptyString
      /\ JS.startsWith (Composer.toneModifiers tone)
           (Composer.finalPrompt Styles.STYLES (Types.id style) tone prompt)
         = true
      /\ Composer.finalPrompt Styles.STYLES (Types.id style) Types.default
                              prompt
         = if Composer.nonBlank prompt then prompt else EmptyString).
Proof.
  intros I. cbn [In Styles.STYLES] in I.
  destruct I as [<- | I].
  { split; intros N; [now destruct N|]. cbn [Types.id Types.promptModifier].
    split; [discriminate|]. split.
    - now apply finalPrompt_tone_head.
    - now apply finalPrompt_plain. }
  repeat (destruct I as [<- | I];
          [split; intros N; [|discriminate N];
           cbn [Types.id Types.promptModifier];
           match goal with
           | |- JS.startsWith ?m (Composer.finalPrompt ?cat ?sid _ _) = true =>
               change m with (Composer.styleMod cat sid)
           end;
           apply finalPrompt_style_head; reflexivity
          |]).
  destruct I.
Qed.

Lemma finalPrompt_style_first_witness :
  JS.startsWith
    "Anime style, Studio Ghibli inspired, cel shaded, vibrant, detailed background, 2D animation"
    (Composer.finalPrompt Styles.STYLES "anime" Types.playful "a red bicycle")
  = true.
Proof.
  apply (proj1 (finalPrompt_style_first
                  (Types.mkStylePreset "anime" "Anime"
                     "Japanese animation style."
                     "Anime style, Studio Ghibli inspired, cel shaded, vibrant, detailed background, 2D animation"
                     "https://picsum.photos/id/453/100/100")
                  Types.playful "a red bicycle"
                  (or_intror (or_intror (or_intror (or_intror
                     (or_intror (or_introl eq_refl)))))))).
  discriminate.
Defined.

(* ================================================================= *)
(** * More on [handleGenerate] *)

Section GenerateFacts.
Import JS GenAI Types App.
Variable env : Env.
Variables c s : State.

Lemma handleGenerate_requests :
  nothingToGenerate c = false ->
  requestsOf (handleGenerate env c) s = [Gemini.imageRequest (config c)].
Proof.
  intros G. unfold requestsOf. now rewrite (handleGenerate_stages env c s G).
Qed.

(** The cells after a request that passed the guard. *)
Lemma handleGenerate_final :
  nothingToGenerate c = false ->
  stateAfter (handleGenerate env c) s
  = mkState (prompt s) (negativePrompt s) (aspectRatio s)
            (selectedStyleId s) (brandTone s) (referenceImage s)
            (if truthyOpt (errorMessage c) then ERROR else IDLE)
            (isTextLoading s)
            (match generated env c with
             | Returned _ => None
             | Thrown _ => Some generationFailed
             end)
            (justRefined s)
            (match generated env c with
             | Returned image => newImage env c image :: history s
             | Thrown _ => history s
             end)
            (match generated env c with
             | Returned image => Some (newImage env c image)
             | Thrown _ => currentImage s
             end)
            (if Nat.leb (innerWidth env) 768 then false else isSidebarOpen s).
Proof.
  intros G. rewrite (handleGenerate_state env c s G), finally_state.
  destruct (generated env c) as [image|e].
  - rewrite settle_returned, announce_state. reflexivity.
  - rewrite settle_thrown, announce_state. reflexivity.
Qed.

Lemma handleGenerate_skipped :
  nothingToGenerate c = true -> stateAfter (handleGenerate env c) s = s.
Proof.
  intros G. unfold stateAfter. now rewrite (handleGenerate_guarded env c s G).
Qed.

End GenerateFacts.

(** X11: once a generate request that passed the guard has completed,
    the state is ERROR when an error message was displayed in the
    render that created the handler and IDLE when none was, whether the
    generation succeeded or failed. *)
Theorem generate_final_state (env : App.Env) (c s : App.State) :
  App.nothingToGenerate c = false ->
  App.appState (App.stateAfter (App.handleGenerate env c) s)
  = if App.truthyOpt (App.errorMessage c) then Types.ERROR else Types.IDLE.
Proof.
  intros G. now rewrite (handleGenerate_final env c s G).
Qed.

(** A success after a failure whose message is still displayed. *)
Lemma generate_final_state_witness :
  let image :=
    GenAI.mkResponse
      (Some [GenAI.mkCandidate
               (Some (GenAI.mkContent
                        (Some [GenAI.mkPart
                                 (Some (GenAI.mkBlob (Some "iVBORw0KGgo=")
                                                     (Some "image/png")))
                                 None])))])
      None in
  let env := App.mkEnv (fun _ => GenAI.Returned image) 1280 "0b5e2c1a" 1000 in
  let s :=
    App.mkState "a red bicycle" EmptyString Types.R1_1 "none" Types.default
                None Types.IDLE false (Some App.generationFailed) false
                [] None true in
  App.appState (App.stateAfter (App.handleGenerate env s) s) = Types.ERROR.
Proof.
  intros image env s. apply (generate_final_state env s s). reflexivity.
Defined.

(** X12: [handleGenerate] never changes what the user entered (prompt,
    negative prompt, format, style, tone, reference image) nor the two
    flags of the text operations; it closes the side bar when it sends
    a request from a window at most 768 wide, and never opens it. *)
Theorem generate_keeps_inputs (env : App.Env) (c s : App.State) :
  let s' := App.stateAfter (App.handleGenerate env c) s in
  App.prompt s' = App.prompt s
  /\ App.negativePrompt s' = App.negativePrompt s
  /\ App.aspectRatio s' = App.aspectRatio s
  /\ App.selectedStyleId s' = App.selectedStyleId s
  /\ App.brandTone s' = App.brandTone s
  /\ App.referenceImage s' = App.referenceImage s
  /\ App.isTextLoading s' = App.isTextLoading s
  /\ App.justRefined s' = App.justRefined s
  /\ App.isSidebarOpen s'
     = if negb (App.nothingToGenerate c) && Nat.leb (App.innerWidth env) 768
       then false else App.isSidebarOpen s.
Proof.
  intros s'. unfold s'. destruct (App.nothingToGenerate c) eqn:G.
  - rewrite (handleGenerate_skipped env c s G). repeat split.
  - rewrite (handleGenerate_final env c s G). repeat split.
Qed.

(** X13: a generate request that passes the guard sends exactly one
    request, to the image model, whose last part is the text made of
    the composed prompt, [". "] and the exclusion of the negative
    prompt when there is one, whose only other part is the reference
    image when there is one, and whose aspect ratio parameter is the
    format selected. *)
Theorem generate_request (env : App.Env) (c s : App.State) :
  App.nothingToGenerate c = false ->
  let text :=
    Composer.finalPrompt Styles.STYLES (App.selectedStyleId c)
                         (App.brandTone c) (App.prompt c)
    ++ ". "
    ++ (if JS.truthy (App.negativePrompt c)
        then "Exclude: " ++ App.negativePrompt c ++ "." else EmptyString) in
  let inline :=
    match App.referenceImage c with
    | Some (String a r) =>
        [GenAI.mkPart
           (Some (GenAI.mkBlob (Some (Gemini.base64Data (String a r)))
                               (Some "image/png"))) None]
    | _ => []
    end in
  App.requestsOf (App.handleGenerate env c) s
  = [GenAI.mkParameters "gemini-2.5-flash-image"
       (GenAI.OfParts (inline ++ [GenAI.mkPart None (Some text)])%list)
       (Some (Types.ratioValue (App.aspectRatio c)))].
Proof.
  intros G text inline.
  rewrite (handleGenerate_requests env c s G).
  unfold Gemini.imageRequest, Gemini.requestParts, Gemini.fullPrompt,
    App.config, App.orUndefined, text, inline.
  cbn [Types.referenceImage Types.negativePrompt Types.prompt
       Types.aspectRatio].
  destruct (App.referenceImage c) as [[|a r]|]; reflexivity.
Qed.

Lemma generate_request_witness :
  let env :=
    App.mkEnv (fun _ => GenAI.Thrown (GenAI.Error "fetch failed"))
              1280 "0b5e2c1a" 1000 in
  let s :=
    App.mkState "a red bicycle" "text" Types.R16_9 "cinematic" Types.luxury
                None Types.IDLE false None false [] None true in
  App.requestsOf (App.handleGenerate env s) s
  = [GenAI.mkParameters "gemini-2.5-flash-image"
       (GenAI.OfParts
          [GenAI.mkPart None
             (Some "Cinematic lighting, 8k resolution, photorealistic, depth of field, anamorphic lens flare, movie still. luxury aesthetic, premium textures, gold and marble accents, dramatic rim lighting, sophisticated, high-end. a red bicycle. Exclude: text.")])
       (Some "16:9")].
Proof.
  intros env s. exact (generate_request env s s eq_refl).
Defined.

(** X14: with a reference image, a blank prompt, a style that is
    ["none"] or not listed, the default tone and no negative prompt,
    the request is still sent, and the text that goes with the image is
    the lone separator [". "]. *)
Theorem generate_reference_only (env : App.Env) (c s : App.State)
        (a : ascii) (r : string) :
  App.referenceImage c = Some (String a r) ->
  Composer.nonBlank (App.prompt c) = false ->
  Composer.styleMod Styles.STYLES (App.selectedStyleId c) = EmptyString ->
  App.brandTone c = Types.default ->
  App.negativePrompt c = EmptyString ->
  App.requestsOf (App.handleGenerate env c) s
  = [GenAI.mkParameters "gemini-2.5-flash-image"
       (GenAI.OfParts
          [GenAI.mkPart
             (Some (GenAI.mkBlob (Some (Gemini.base64Data (String a r)))
                                 (Some "image/png"))) None;
           GenAI.mkPart None (Some ". ")])
       (Some (Types.ratioValue (App.aspectRatio c)))].
Proof.
  intros R B S T N.
  assert (G : App.nothingToGenerate c = false).
  { unfold App.nothingToGenerate. rewrite R. cbn. apply andb_false_r. }
  rewrite (handleGenerate_requests env c s G).
  unfold Gemini.imageRequest, Gemini.requestParts, Gemini.fullPrompt,
    App.config, App.orUndefined.
  cbn [Types.referenceImage Types.negativePrompt Types.prompt
       Types.aspectRatio].
  rewrite R, N, T, (finalPrompt_plain Styles.STYLES _ _ S), B.
  reflexivity.
Qed.

Lemma generate_reference_only_witness :
  let env :=
    App.mkEnv (fun _ => GenAI.Thrown (GenAI.Error "fetch failed"))
              1280 "0b5e2c1a" 1000 in
  let s :=
    App.mkState "  " EmptyString Types.R1_1 "none" Types.default
                (Some "data:image/jpeg;base64,/9j/4AAQ")
                Types.IDLE false None false [] None true in
  App.requestsOf (App.handleGenerate env s) s
  = [GenAI.mkParameters "gemini-2.5-flash-image"
       (GenAI.OfParts
          [GenAI.mkPart
             (Some (GenAI.mkBlob (Some "/9j/4AAQ") (Some "image/png"))) None;
           GenAI.mkPart None (Some ". ")])
       (Some "1:1")].
Proof.
  intros env s.
  exact (generate_reference_only env s s "d" "ata:image/jpeg;base64,/9j/4AAQ"
           eq_refl eq_refl eq_refl eq_refl eq_refl).
Defined.

(* ================================================================= *)
(** * The text operations of the component *)

Section TextHandlerFacts.
Import JS GenAI Types App.
Variable env : Env.
Variables c s : State.

(** What the awaited [enhancePrompt(prompt, brandTone, aspectRatio)] gives. *)
Lemma handleEnhancePrompt_run :
  trim (prompt c) <> EmptyString ->
  run (handleEnhancePrompt env c s)
  = (([mkTimeout (setJustRefined false) 3000],
      mkState (fst (run (Gemini.enhancePrompt (ai env) (prompt c)
                           (toneValue (brandTone c))
                           (ratioValue (aspectRatio c)))))
              (negativePrompt s) (aspectRatio s)
              (selectedStyleId s) (brandTone s) (referenceImage s)
              (appState s) false None true
              (history s) (currentImage s) (isSidebarOpen s)),
     [Gemini.enhanceRequest (prompt c) (toneValue (brandTone c))
                            (ratioValue (aspectRatio c))]).
Proof.
  intros H. apply truthy_true in H.
  unfold handleEnhancePrompt. rewrite H. cbn [negb].
  unfold run, settled, seq, App.bind, await, GenAI.bind, Gemini.enhancePrompt,
    GenAI.bind, generateContent.
  cbn.
  now destruct (ai env _).
Qed.

Lemma handleEnhancePrompt_skipped :
  trim (prompt c) = EmptyString ->
  run (handleEnhancePrompt env c s) = (([], s), []).
Proof.
  intros H. unfold handleEnhancePrompt. now rewrite H.
Qed.

Lemma handleSurpriseMe_state (pick : nat) :
  stateAfter (handleSurpriseMe env c pick) s
  = let creative :=
      fst (run (Gemini.suggestCreativePrompt (ai env)
                  (toneValue (brandTone c)) (ratioValue (aspectRatio c)))) in
    let picked :=
      match brandTone c with
      | default => Some (nth_error Styles.STYLES pick)
      | _ => None
      end in
    mkState creative (negativePrompt s) (aspectRatio s)
            (match picked with
             | Some (Some randomStyle) => id randomStyle
             | _ => selectedStyleId s
             end)
            (brandTone s) (referenceImage s) (appState s) false
            (match picked with
             | Some None => Some suggestionFailed
             | _ => None
             end)
            false (history s) (currentImage s) (isSidebarOpen s).
Proof.
  unfold stateAfter, handleSurpriseMe, surprise.
  unfold run, settled, seq, App.bind, await, GenAI.bind,
    Gemini.suggestCreativePrompt, GenAI.bind, generateContent.
  cbn.
  destruct (ai env _); destruct (brandTone c); cbn;
    try reflexivity; destruct (nth_error Styles.STYLES pick); reflexivity.
Qed.

Lemma nothingToGenerate_prompt (s' : State) :
  trim (prompt s') <> EmptyString -> nothingToGenerate s' = false.
Proof.
  intros H. apply truthy_true in H. unfold nothingToGenerate. now rewrite H.
Qed.

End TextHandlerFacts.

(** X15: [handleEnhancePrompt] on a blank prompt does nothing: no
    request, no timeout, no cell changed.  Otherwise it sends the one
    enhancement request for the prompt, tone and format of its render,
    replaces the prompt by what [enhancePrompt] returned, clears the
    loading flag and the error message, raises the refined flag and
    registers one timeout of 3000 ms that lowers it; the generation
    state, the history and the image shown stay.  A failure of the
    service is silent: the prompt is the one of the render again and no
    message is set. *)
Theorem enhance_outcome (env : App.Env) (c s : App.State) :
  (JS.trim (App.prompt c) = EmptyString ->
   GenAI.run (App.handleEnhancePrompt env c s) = (([], s), []))
  /\ (JS.trim (App.prompt c) <> EmptyString ->
      let enhanced :=
        fst (GenAI.run (Gemini.enhancePrompt (App.ai env) (App.prompt c)
                          (Types.toneValue (App.brandTone c))
                          (Types.ratioValue (App.aspectRatio c)))) in
      let s' := App.stateAfter (App.handleEnhancePrompt env c) s in
      App.requestsOf (App.handleEnhancePrompt env c) s
      = [Gemini.enhanceRequest (App.prompt c)
           (Types.toneValue (App.brandTone c))
           (Types.ratioValue (App.aspectRatio c))]
      /\ fst (fst (GenAI.run (App.handleEnhancePrompt env c s)))
         = [App.mkTimeout (App.setJustRefined false) 3000]
      /\ App.prompt s' = enhanced
      /\ App.isTextLoading s' = false
      /\ App.errorMessage s' = None
      /\ App.justRefined s' = true
      /\ App.appState s' = App.appState s
      /\ App.history s' = App.history s
      /\ App.currentImage s' = App.currentImage s
      /\ (forall e,
            App.ai env (Gemini.enhanceRequest (App.prompt c)
                          (Types.toneValue (App.brandTone c))
                          (Types.ratioValue (App.aspectRatio c)))
            = GenAI.Thrown e ->
            App.prompt s' = App.prompt c)).
Proof.
  split; [apply handleEnhancePrompt_skipped|].
  intros H enhanced s'. unfold s', App.requestsOf, App.stateAfter.
  rewrite (handleEnhancePrompt_run env c s H). cbn [fst snd].
  repeat split.
  intros e E. cbn [App.prompt]. now rewrite enhancePrompt_value, E.
Qed.

Lemma enhance_outcome_witness :
  let env :=
    App.mkEnv (fun _ => GenAI.Thrown (GenAI.Error "fetch failed"))
              1280 "0b5e2c1a" 1000 in
  let s := App.stateAfter (App.setPrompt "a red bicycle") (App.initial env) in
  App.prompt (App.stateAfter (App.handleEnhancePrompt env s) s)
  = "a red bicycle"
  /\ App.errorMessage (App.stateAfter (App.handleEnhancePrompt env s) s) = None.
Proof.
  intros env s.
  destruct (proj2 (enhance_outcome env s s))
    as [_ [_ [_ [_ [E [_ [_ [_ [_ F]]]]]]]]].
  - discriminate.
  - split; [|exact E].
    apply (F (GenAI.Error "fetch failed")). reflexivity.
Defined.

(** X16: after an enhancement that ran (the prompt was not blank), the
    prompt is not blank, so the next generate request passes the guard
    and sends its request. *)
Theorem enhance_then_generate (env next : App.Env) (c s : App.State) :
  JS.trim (App.prompt c) <> EmptyString ->
  let s' := App.stateAfter (App.handleEnhancePrompt env c) s in
  App.nothingToGenerate s' = false
  /\ App.requestsOf (App.handleGenerate next s') s'
     = [Gemini.imageRequest (App.config s')].
Proof.
  intros H s'.
  assert (G : App.nothingToGenerate s' = false).
  { apply nothingToGenerate_prompt. unfold s', App.stateAfter.
    rewrite (handleEnhancePrompt_run env c s H). cbn [fst snd App.prompt].
    rewrite enhancePrompt_value.
    destruct (App.ai env _) as [response|e]; [|exact H].
    rewrite orElse_trim.
    destruct (GenAI.response_text response) as [t|]; [|exact H].
    destruct (String.eqb (JS.trim t) EmptyString) eqn:E; [exact H|].
    rewrite trim_idempotent. now apply String.eqb_neq. }
  split; [exact G | now apply handleGenerate_requests].
Qed.

Lemma enhance_then_generate_witness :
  let env :=
    App.mkEnv (fun _ => GenAI.Returned (GenAI.mkResponse None (Some "   ")))
              1280 "0b5e2c1a" 1000 in
  let s := App.stateAfter (App.setPrompt "a red bicycle") (App.initial env) in
  App.nothingToGenerate (App.stateAfter (App.handleEnhancePrompt env s) s)
  = false.
Proof.
  intros env s.
  apply (proj1 (enhance_then_generate env env s s ltac:(discriminate))).
Defined.

(** X17: after [handleSurpriseMe], whatever the service did, the prompt
    is not blank and a generate request passes the guard; the loading
    and refined flags are down; with the default tone and a pick within
    the catalog the style selected is the one picked, which the
    composer finds in the catalog, and no message is set; with another
    tone the style selected stays. *)
Theorem surprise_outcome (env : App.Env) (c s : App.State) (pick : nat) :
  let s' := App.stateAfter (App.handleSurpriseMe env c pick) s in
  App.nothingToGenerate s' = false
  /\ App.isTextLoading s' = false
  /\ App.justRefined s' = false
  /\ (App.brandTone c = Types.default ->
      pick < length Styles.STYLES ->
      App.errorMessage s' = None
      /\ exists style,
           nth_error Styles.STYLES pick = Some style
           /\ App.selectedStyleId s' = Types.id style
           /\ find (fun x => String.eqb (Types.id x) (App.selectedStyleId s'))
                   Styles.STYLES = Some style)
  /\ (App.brandTone c <> Types.default ->
      App.selectedStyleId s' = App.selectedStyleId s
      /\ App.errorMessage s' = None).
Proof.
  intros s'. unfold s'. rewrite handleSurpriseMe_state. cbv zeta.
  split; [|split; [reflexivity | split; [reflexivity | split]]].
  - apply nothingToGenerate_prompt. cbn [App.prompt].
    rewrite suggestCreativePrompt_value.
    destruct (App.ai env _) as [response|e]; [|discriminate].
    rewrite orElse_trim.
    destruct (GenAI.response_text response) as [t|]; [|discriminate].
    destruct (String.eqb (JS.trim t) EmptyString) eqn:E; [discriminate|].
    rewrite trim_idempotent. now apply String.eqb_neq.
  - intros T P. rewrite T. cbn [App.errorMessage App.selectedStyleId].
    do 6 (destruct pick as [|pick];
          [split; [reflexivity | eexists; repeat split] |]).
    cbn in P. lia.
  - intros T. cbn [App.errorMessage App.selectedStyleId].
    destruct (App.brandTone c); try reflexivity; [now destruct T | ..];
      split; reflexivity.
Qed.

Lemma surprise_outcome_witness :
  let env :=
    App.mkEnv (fun _ => GenAI.Thrown (GenAI.Error "fetch failed"))
              1280 "0b5e2c1a" 1000 in
  App.selectedStyleId
    (App.stateAfter (App.handleSurpriseMe env (App.initial env) 4)
                    (App.initial env))
  = "3d-render".
Proof.
  intros env.
  destruct (proj1 (proj2 (proj2 (proj2
              (surprise_outcome env (App.initial env) (App.initial env) 4))))
              eq_refl ltac:(cbn; lia))
    as [_ [style [N [S _]]]].
  rewrite S. cbn in N. now injection N as <-.
Defined.

(* ================================================================= *)
(** * The keyboard shortcut and the download link *)

Section ShortcutFacts.
Import JS GenAI Types App.

Lemma truthy_false_empty (x : string) : truthy x = false -> x = EmptyString.
Proof. destruct x; [reflexivity | discriminate]. Qed.

Lemma falsy_prompt_blank (c : State) :
  truthy (prompt c) || truthyOpt (referenceImage c) = false ->
  nothingToGenerate c = true.
Proof.
  intros H. apply orb_false_iff in H. destruct H as [P R].
  apply truthy_false_empty in P.
  unfold nothingToGenerate. now rewrite P, R.
Qed.

Lemma append_cancel_l (a b c : string) : a ++ b = a ++ c -> b = c.
Proof.
  induction a as [|x a IH]; cbn; intros H; [exact H|].
  injection H as H. auto.
Qed.

Lemma length_append (a b : string) :
  String.length (a ++ b) = String.length a + String.length b.
Proof. induction a as [|x a IH]; cbn; [reflexivity | now rewrite IH]. Qed.

Lemma append_cancel_r (a b c : string) : a ++ c = b ++ c -> a = b.
Proof.
  revert b. induction a as [|x a IH]; intros [|y b] H; cbn in H.
  - reflexivity.
  - apply (f_equal String.length) in H. cbn in H. rewrite length_append in H. lia.
  - apply (f_equal String.length) in H. cbn in H. rewrite length_append in H. lia.
  - injection H as -> H. now rewrite (IH b H).
Qed.

Lemma length_slice (n : nat) (s : string) :
  String.length (slice 0 n s) = Nat.min n (String.length s).
Proof.
  unfold slice. rewrite Nat.sub_0_r. revert s.
  induction n as [|n IH]; intros [|x s]; cbn; try reflexivity.
  now rewrite IH.
Qed.

Lemma slice_whole (n : nat) (s : string) :
  String.length s <= n -> slice 0 n s = s.
Proof.
  unfold slice. rewrite Nat.sub_0_r. revert s.
  induction n as [|n IH]; intros [|x s] H; cbn in *; try reflexivity;
    [lia|].
  rewrite IH; [reflexivity | lia].
Qed.

Lemma slice_front (n : nat) (first rest : string) :
  String.length first = n -> slice 0 n (first ++ rest) = first.
Proof.
  unfold slice. rewrite Nat.sub_0_r. revert first.
  induction n as [|n IH]; intros [|x first] H; cbn in *; try discriminate.
  - now destruct rest.
  - rewrite IH; [reflexivity | lia].
Qed.

End ShortcutFacts.

(** X18: the keyboard shortcut (Enter with the control or the meta
    key) does exactly what [handleGenerate] of the same render does,
    in every state: the test the listener makes before the call is
    covered by the guard of the handler.  Every other key does
    nothing. *)
Theorem shortcut_is_generate (env : App.Env) (c s : App.State)
        (e : App.KeyboardEvent) :
  (App.metaKey e || App.ctrlKey e = true ->
   App.key e = "Enter" ->
   GenAI.run (App.handleKeyDown env c e s)
   = GenAI.run (App.handleGenerate env c s))
  /\ (App.metaKey e || App.ctrlKey e = false \/ App.key e <> "Enter" ->
      GenAI.run (App.handleKeyDown env c e s) = ((tt, s), [])).
Proof.
  unfold App.handleKeyDown. split.
  - intros M K. rewrite M, K, String.eqb_refl. cbn [andb].
    destruct (JS.truthy (App.prompt c) || App.truthyOpt (App.referenceImage c))
      eqn:P; [reflexivity|].
    now rewrite (handleGenerate_guarded env c s (falsy_prompt_blank c P)).
  - intros [M | K].
    + now rewrite M.
    + apply String.eqb_neq in K. rewrite K. now rewrite andb_false_r.
Qed.

Lemma shortcut_is_generate_witness :
  let env :=
    App.mkEnv (fun _ => GenAI.Thrown (GenAI.Error "fetch failed"))
              1280 "0b5e2c1a" 1000 in
  let s := App.stateAfter (App.setPrompt "   ") (App.initial env) in
  GenAI.run (App.handleKeyDown env s (App.mkKeyboardEvent false true "Enter") s)
  = GenAI.run (App.handleGenerate env s s).
Proof.
  intros env s.
  apply (proj1 (shortcut_is_generate env s s
                  (App.mkKeyboardEvent false true "Enter")));
    reflexivity.
Defined.

(** X19: while a generation is running the Generate button is
    disabled, but the keyboard shortcut is not: with a prompt that is
    not blank it sends another request. *)
Theorem shortcut_while_generating (env : App.Env) (c s : App.State)
        (e : App.KeyboardEvent) :
  App.appState c = Types.GENERATING ->
  JS.trim (App.prompt c) <> EmptyString ->
  App.metaKey e || App.ctrlKey e = true ->
  App.key e = "Enter" ->
  App.generateDisabled c = true
  /\ App.requestsOf (App.handleKeyDown env c e) s
     = [Gemini.imageRequest (App.config c)].
Proof.
  intros A P M K. split.
  - unfold App.generateDisabled. now rewrite A.
  - unfold App.requestsOf, App.handleKeyDown.
    rewrite M, K, String.eqb_refl. cbn [andb].
    assert (T : JS.truthy (App.prompt c) = true).
    { apply truthy_true. intros E. apply P. now rewrite E. }
    rewrite T. cbn [orb].
    apply (handleGenerate_requests env c s).
    now apply nothingToGenerate_prompt.
Qed.

Lemma shortcut_while_generating_witness :
  let env :=
    App.mkEnv (fun _ => GenAI.Thrown (GenAI.Error "fetch failed"))
              1280 "0b5e2c1a" 1000 in
  let s :=
    App.mkState "a red bicycle" EmptyString Types.R1_1 "none" Types.default
                None Types.GENERATING false None false [] None true in
  App.generateDisabled s = true
  /\ App.requestsOf
       (App.handleKeyDown env s (App.mkKeyboardEvent true false "Enter")) s
     = [Gemini.imageRequest (App.config s)].
Proof.
  intros env s.
  apply (shortcut_while_generating env s s
           (App.mkKeyboardEvent true false "Enter"));
    try reflexivity.
  discriminate.
Defined.

(** X20: the link of [handleDownload] points to the data of the image
    and its file name is [gemini-vision-], the first eight characters
    of the id (all of it when it has at most eight) and [.png]; so two
    images get the same file name exactly when their ids agree on these
    characters. *)
Theorem download_name (a b : Types.GeneratedImage) :
  App.href (App.handleDownload a) = Types.img_data a
  /\ (forall first rest,
        Types.img_id a = first ++ rest ->
        String.length first = 8 ->
        App.download (App.handleDownload a)
        = "gemini-vision-" ++ first ++ ".png")
  /\ (String.length (Types.img_id a) <= 8 ->
      App.download (App.handleDownload a)
      = "gemini-vision-" ++ Types.img_id a ++ ".png")
  /\ String.length (App.download (App.handleDownload a))
     = 18 + Nat.min 8 (String.length (Types.img_id a))
  /\ (App.download (App.handleDownload a) = App.download (App.handleDownload b)
      <-> JS.slice 0 8 (Types.img_id a) = JS.slice 0 8 (Types.img_id b)).
Proof.
  split; [reflexivity|].
  cbn [App.handleDownload App.download]. split; [|split; [|split]].
  - intros first rest E L. now rewrite E, (slice_front 8 first rest L).
  - intros L. now rewrite (slice_whole 8 _ L).
  - rewrite !length_append, length_slice. cbn. lia.
  - split.
    + intros H. apply append_cancel_l in H.
      now apply append_cancel_r in H.
    + now intros ->.
Qed.

(** An id as [crypto.randomUUID()] gives them. *)
Lemma download_name_witness :
  App.download
    (App.handleDownload
       (Types.mkGeneratedImage
          ("0b5e2c1a" ++ "-7d43-4f0e-9a61-3c2b8e5f1d90")
          "data:image/png;base64,iVBORw0KGgo=" "a red bicycle" 1000 "1:1"))
  = "gemini-vision-0b5e2c1a.png".
Proof.
  apply (proj1 (proj2
           (download_name
              (Types.mkGeneratedImage
                 ("0b5e2c1a" ++ "-7d43-4f0e-9a61-3c2b8e5f1d90")
                 "data:image/png;base64,iVBORw0KGgo=" "a red bicycle" 1000
                 "1:1")
              (Types.mkGeneratedImage "x" "y" "z" 0 "1:1")))
           "0b5e2c1a" "-7d43-4f0e-9a61-3c2b8e5f1d90");
    reflexivity.
Defined.

(* ================================================================= *)
(** * Sessions *)

Section SessionFacts.
Import JS GenAI Types App.

Lemma newImage_png (env : Env) (c : State) (image : string) :
  generated env c = Returned image -> pngDataUrl (newImage env c image).
Proof.
  intros H. apply generateImage_returned_inv in H.
  destruct H as [_ [_ [_ [_ [_ [_ [d [_ [_ [_ [_ [_ [N ->]]]]]]]]]]]]].
  now exists d.
Qed.

(** What a run of [handleGenerate] does to the images. *)
Lemma handleGenerate_images (env : Env) (c s : State) :
  let s' := stateAfter (handleGenerate env c) s in
  (history s' = history s /\ currentImage s' = currentImage s)
  \/ (exists img, pngDataUrl img /\ history s' = img :: history s
                  /\ currentImage s' = Some img).
Proof.
  intros s'. unfold s'. destruct (nothingToGenerate c) eqn:G.
  - rewrite (handleGenerate_skipped env c s G). now left.
  - rewrite (handleGenerate_final env c s G).
    destruct (generated env c) as [image|e] eqn:R.
    + right. exists (newImage env c image).
      split; [now apply newImage_png | split; reflexivity].
    + now left.
Qed.

Lemma handleGenerate_rest (env : Env) (c s : State) :
  let s' := stateAfter (handleGenerate env c) s in
  (appState s' = appState s \/ appState s' = IDLE \/ appState s' = ERROR)
  /\ isTextLoading s' = isTextLoading s.
Proof.
  intros s'. unfold s'. destruct (nothingToGenerate c) eqn:G.
  - rewrite (handleGenerate_skipped env c s G). auto.
  - rewrite (handleGenerate_final env c s G). cbn.
    destruct (truthyOpt (errorMessage c)); auto.
Qed.

Lemma handleEnhancePrompt_state (env : Env) (c s : State) :
  let s' := stateAfter (handleEnhancePrompt env c) s in
  appState s' = appState s /\ history s' = history s
  /\ currentImage s' = currentImage s
  /\ (isTextLoading s' = isTextLoading s \/ isTextLoading s' = false).
Proof.
  intros s'. unfold s', stateAfter.
  destruct (String.eqb (trim (prompt c)) EmptyString) eqn:E.
  - apply String.eqb_eq in E.
    rewrite (handleEnhancePrompt_skipped env c s E). cbn. auto.
  - apply String.eqb_neq in E.
    rewrite (handleEnhancePrompt_run env c s E). cbn. auto.
Qed.

Lemma handleKeyDown_cases (env : Env) (c s : State) (e : KeyboardEvent) :
  stateAfter (handleKeyDown env c e) s = s
  \/ stateAfter (handleKeyDown env c e) s = stateAfter (handleGenerate env c) s.
Proof.
  unfold handleKeyDown.
  destruct ((metaKey e || ctrlKey e) && String.eqb (key e) "Enter");
    [|now left].
  destruct (truthy (prompt c) || truthyOpt (referenceImage c));
    [now right | now left].
Qed.

(** One action: the history is kept, the image shown being kept or
    taken from it, or one image that the service returned is put in
    front of it and shown. *)
Lemma step_images (a : Action) (s : State) :
  (history (step a s) = history s
   /\ (currentImage (step a s) = currentImage s
       \/ exists img, In img (history s)
                      /\ currentImage (step a s) = Some img))
  \/ (exists img, pngDataUrl img /\ history (step a s) = img :: history s
                  /\ currentImage (step a s) = Some img).
Proof.
  destruct a; cbn [step]; try (left; split; [reflexivity | now left]).
  - destruct (surpriseDisabled s); [left; auto|].
    rewrite handleSurpriseMe_state. left. cbn. auto.
  - destruct (enhanceDisabled s); [left; auto|].
    destruct (handleEnhancePrompt_state env s s) as [_ [H [C _]]].
    left. split; [exact H | now left].
  - destruct (generateDisabled s); [left; auto|].
    destruct (handleGenerate_images env s s) as [[H C] | R];
      [left; auto | now right].
  - destruct (handleKeyDown_cases env (listenerView shown s) s e) as [-> | ->];
      [left; auto|].
    destruct (handleGenerate_images env (listenerView shown s) s)
      as [[H C] | R]; [left; auto | now right].
  - destruct (nth_error (history s) n) as [img|] eqn:N; [|left; auto].
    left. split; [reflexivity|]. right. exists img.
    split; [now apply (nth_error_In _ n) | reflexivity].
  - destruct (Nat.leb width 768); left; auto.
Qed.

(** One action from a state at rest leaves the state at rest. *)
Lemma step_rest (a : Action) (s : State) :
  (appState s = IDLE \/ appState s = ERROR) /\ isTextLoading s = false ->
  (appState (step a s) = IDLE \/ appState (step a s) = ERROR)
  /\ isTextLoading (step a s) = false.
Proof.
  intros [A T]. destruct a; cbn [step]; try (split; assumption).
  - destruct (surpriseDisabled s); [auto|].
    rewrite handleSurpriseMe_state. cbn. auto.
  - destruct (enhanceDisabled s); [auto|].
    destruct (handleEnhancePrompt_state env s s) as [H [_ [_ [L | L]]]];
      rewrite H; split; auto; now rewrite L.
  - destruct (generateDisabled s); [auto|].
    destruct (handleGenerate_rest env s s) as [[H | H] L];
      rewrite L; split; auto; now rewrite H.
  - destruct (handleKeyDown_cases env (listenerView shown s) s e) as [-> | ->];
      [auto|].
    destruct (handleGenerate_rest env (listenerView shown s) s) as [[H | H] L];
      rewrite L; split; auto; now rewrite H.
  - destruct (nth_error (history s) n); cbn; auto.
  - destruct (Nat.leb width 768); cbn; auto.
Qed.

Lemma session_cons (a : Action) (l : list Action) (s : State) :
  session (a :: l) s = session l (step a s).
Proof. reflexivity. Qed.

(** What every session keeps. *)
Lemma session_invariant (l : list Action) (s : State) :
  ((appState s = IDLE \/ appState s = ERROR) /\ isTextLoading s = false) ->
  shownFromHistory s ->
  Forall pngDataUrl (history s) ->
  ((appState (session l s) = IDLE \/ appState (session l s) = ERROR)
   /\ isTextLoading (session l s) = false)
  /\ shownFromHistory (session l s)
  /\ Forall pngDataUrl (history (session l s)).
Proof.
  revert s. induction l as [|a l IH]; intros s R C P; [auto|].
  rewrite session_cons. apply IH.
  - now apply step_rest.
  - unfold shownFromHistory in *.
    destruct (step_images a s) as [[H [E | [img [I E]]]] | [img [_ [H E]]]];
      rewrite E, H; auto. now left.
  - destruct (step_images a s) as [[H _] | [img [G [H _]]]]; rewrite H; auto.
Qed.

Lemma session_history (l : list Action) (s : State) :
  exists newer,
    history (session l s) = (newer ++ history s)%list
    /\ length newer <= length l.
Proof.
  revert s. induction l as [|a l IH]; intros s.
  - exists []. auto.
  - rewrite session_cons. destruct (IH (step a s)) as [newer [H L]].
    destruct (step_images a s) as [[E _] | [img [_ [E _]]]].
    + exists newer. rewrite H, E. cbn. split; [reflexivity | lia].
    + exists (newer ++ [img])%list. rewrite H, E, <- app_assoc.
      split; [reflexivity|]. rewrite length_app. cbn. lia.
Qed.

End SessionFacts.

(** X21: between the actions of a session (each running to its end
    before the next), the state is IDLE or ERROR, never SUCCESS nor
    GENERATING, and no text operation is marked as running. *)
Theorem session_at_rest (env : App.Env) (actions : list App.Action) :
  let s := App.session actions (App.initial env) in
  (App.appState s = Types.IDLE \/ App.appState s = Types.ERROR)
  /\ App.isTextLoading s = false.
Proof.
  apply (session_invariant actions (App.initial env)).
  - cbn. auto.
  - exact I.
  - constructor.
Qed.

(** X22: in every session the image shown, when there is one, is an
    entry of the history. *)
Theorem session_shows_history (env : App.Env) (actions : list App.Action) :
  App.shownFromHistory (App.session actions (App.initial env)).
Proof.
  apply (session_invariant actions (App.initial env)).
  - cbn. auto.
  - exact I.
  - constructor.
Qed.

(** X23: in every session each entry of the history holds an image as
    the service returned it: the prefix [data:image/png;base64,] and a
    payload that is not empty. *)
Theorem session_history_images (env : App.Env) (actions : list App.Action) :
  Forall App.pngDataUrl (App.history (App.session actions (App.initial env))).
Proof.
  apply (session_invariant actions (App.initial env)).
  - cbn. auto.
  - exact I.
  - constructor.
Qed.

(** X24: a session never removes or reorders entries of the history:
    what was there stays at the end, in order, and at most one entry
    per action is put in front. *)
Theorem session_history_grows (actions : list App.Action) (s : App.State) :
  exists newer,
    App.history (App.session actions s) = (newer ++ App.history s)%list
    /\ length newer <= length actions.
Proof.
  apply session_history.
Qed.

(* ================================================================= *)
(** * The inspiration cards *)

Section InspirationFacts.
Import JS Types App.

Lemma setInspiration_state (p styleId : string) (tone : BrandTone)
      (s : State) :
  stateAfter (setInspiration p styleId tone) s
  = mkState p (negativePrompt s) (aspectRatio s) styleId tone
            (referenceImage s) (appState s) (isTextLoading s)
            (errorMessage s) (justRefined s) (history s) (currentImage s)
            true.
Proof. reflexivity. Qed.

End InspirationFacts.

(** X25: each of the three inspiration cards names a style of the
    catalog other than ["none"] and a tone other than the default, with
    a prompt that is not blank: after a click on a card, in any state,
    a generate request passes the guard and its composed prompt is the
    modifier of that style, the keywords of that tone and the prompt of
    the card, joined by [". "]. *)
Theorem inspiration_composed (card : string * string * Types.BrandTone)
        (s : App.State) :
  In card App.inspirations ->
  let '(p, styleId, tone) := card in
  let s' := App.stateAfter (App.setInspiration p styleId tone) s in
  App.nothingToGenerate s' = false
  /\ exists style,
       In style Styles.STYLES
       /\ Types.id style = styleId
       /\ Types.prompt (App.config s')
          = Types.promptModifier style ++ ". "
            ++ Composer.toneModifiers tone ++ ". " ++ p.
Proof.
  intros I. cbn [In App.inspirations] in I.
  destruct I as [<- | [<- | [<- | []]]];
    rewrite setInspiration_state; (split; [reflexivity|]).
  - exists (nth 4 Styles.STYLES (Types.mkStylePreset "" "" "" "" "")).
    split; [cbn; tauto | split; reflexivity].
  - exists (nth 2 Styles.STYLES (Types.mkStylePreset "" "" "" "" "")).
    split; [cbn; tauto | split; reflexivity].
  - exists (nth 1 Styles.STYLES (Types.mkStylePreset "" "" "" "" "")).
    split; [cbn; tauto | split; reflexivity].
Qed.

Lemma inspiration_composed_witness :
  App.nothingToGenerate
    (App.stateAfter
       (App.setInspiration
          "Elegant perfume bottle on black marble, gold accents, dramatic rim lighting, luxury advertising"
          "cinematic" Types.luxury)
       (App.initial
          (App.mkEnv (fun _ => GenAI.Thrown (GenAI.Error "fetch failed"))
                     1280 "0b5e2c1a" 1000)))
  = false.
Proof.
  exact (proj1 (inspiration_composed
                  ("Elegant perfume bottle on black marble, gold accents, dramatic rim lighting, luxury advertising",
                   "cinematic", Types.luxury)
                  (App.initial
                     (App.mkEnv
                        (fun _ => GenAI.Thrown (GenAI.Error "fetch failed"))
                        1280 "0b5e2c1a" 1000))
                  (or_intror (or_intror (or_introl eq_refl))))).
Defined.
